(** * CSV Explorer & Q&A Agent: the query engine, the store and the log

    A shallow embedding of [tools.py] ([CSVTool], [QueryTool]) and
    [agent.py] ([CSVAgent]) together with the properties of the
    natural-language query engine, the tabular store and the interaction
    log.

    Conventions of the embedding:
    - a Python [str] is a list of characters ([str := list ascii]): the
      texts of code points 0 to 255, a character being its code point; the
      character functions ([isspace], [isupper], [isalnum], [lower], the
      classes [\w], [\s], [\d] of [re]) are Python's on these code
      points; [upper] is Python's on ASCII text only, since it leads out
      of these code points;
    - a Python [float] is an IEEE binary64 value of [SpecFloat]
      ([prec = 53], [emax = 1024]), an [int] is a [Z];
    - a call that may raise returns a [res]: [Ok v] or [Raise e], and a
      method that assigns to [self] is a function of the state;
    - of pandas, the operations the source calls are defined on a table of
      cells ([Pd]); the parser [pd.read_csv] and the engine
      [pandasql.sqldf] are variables of a section. *)

From Stdlib Require Import Ascii String ZArith Bool Lia Arith List.
From Stdlib Require Import Floats.SpecFloat DecimalString.
Import ListNotations.

Local Open Scope string_scope.
Local Open Scope nat_scope.
Local Open Scope list_scope.

(** ** Python strings *)

Definition str := list ascii.

Definition str_of_string (s : string) : str := list_ascii_of_string s.
Coercion str_of_string : string >-> str.

Definition code (c : ascii) : nat := nat_of_ascii c.

Definition str_eqb (a b : str) : bool :=
  if list_eq_dec ascii_dec a b then true else false.

(** ** Exceptions

    The Python exceptions the modelled code raises, with their message. *)
Inductive exn : Type :=
| ValueError (msg : str)
| TypeError (msg : str)
| KeyError (msg : str)
| IndexError (msg : str).

Inductive res (A : Type) : Type :=
| Ok (a : A)
| Raise (e : exn).
Arguments Ok {A} a.
Arguments Raise {A} e.

Definition bind {A B} (m : res A) (f : A -> res B) : res B :=
  match m with
  | Ok a => f a
  | Raise e => Raise e
  end.

Notation "x <- m ;; k" := (bind m (fun x => k))
  (at level 61, m at next level, right associativity).

Module Py.

(** [str.isspace] on one character: TAB..CR, FS..US, the blank, NEL
    (133) and the no-break space (160). *)
Definition isspace (c : ascii) : bool :=
  let n := code c in
  ((9 <=? n) && (n <=? 13)) || ((28 <=? n) && (n <=? 32))
  || (n =? 133) || (n =? 160).

Definition isdigit (c : ascii) : bool :=
  let n := code c in (48 <=? n) && (n <=? 57).

(** [str.isupper] on one character: A..Z and the capitals 192..222 of
    Latin-1, of which 215 (the multiplication sign) is none. *)
Definition isupper (c : ascii) : bool :=
  let n := code c in
  ((65 <=? n) && (n <=? 90))
  || ((192 <=? n) && (n <=? 222) && negb (n =? 215)).

(** [str.isalnum] on one character: the digits, the letters, and the
    letters and numbers of Latin-1 (170, 178, 179, 181, 185, 186,
    188..190, 192..255 without 215 and 247). *)
Definition isalnum (c : ascii) : bool :=
  let n := code c in
  ((48 <=? n) && (n <=? 57)) || ((65 <=? n) && (n <=? 90))
  || ((97 <=? n) && (n <=? 122))
  || (n =? 170) || (n =? 178) || (n =? 179) || (n =? 181)
  || (n =? 185) || (n =? 186) || ((188 <=? n) && (n <=? 190))
  || ((192 <=? n) && negb (n =? 215) && negb (n =? 247)).

(** Every capital has its small letter 32 code points further. *)
Definition lower_char (c : ascii) : ascii :=
  if isupper c then ascii_of_nat (code c + 32) else c.

(** The capital of an ASCII letter; other characters are left alone. *)
Definition upper_char (c : ascii) : ascii :=
  let n := code c in
  if (97 <=? n) && (n <=? 122) then ascii_of_nat (n - 32) else c.

(** [s.isascii()] *)
Definition isascii (s : str) : bool :=
  forallb (fun c => code c <? 128) s.

(** [s.lower()], and [s.upper()] for [s] with [s.isascii()]: the
    capitals of the small letters above 127 are two letters (223), lie
    above 255 (181, 255) or 32 code points lower (224..254). *)
Definition lower (s : str) : str := map lower_char s.
Definition upper (s : str) : str := map upper_char s.

(** [s.lstrip(chars)], [s.rstrip(chars)], [s.strip(chars)] for a set of
    characters given by its membership test. *)
Fixpoint lstrip_by (f : ascii -> bool) (s : str) : str :=
  match s with
  | c :: s' => if f c then lstrip_by f s' else s
  | [] => []
  end.

Definition rstrip_by (f : ascii -> bool) (s : str) : str :=
  rev (lstrip_by f (rev s)).

Definition strip_by (f : ascii -> bool) (s : str) : str :=
  rstrip_by f (lstrip_by f s).

(** [s.strip()] *)
Definition strip (s : str) : str := strip_by isspace s.

Definition mem_char (chars : str) (c : ascii) : bool :=
  existsb (Ascii.eqb c) chars.

(** [s.strip(chars)] *)
Definition strip_chars (chars : str) (s : str) : str :=
  strip_by (mem_char chars) s.

(** [s.startswith(p)] *)
Fixpoint startswith (p s : str) : bool :=
  match p, s with
  | [], _ => true
  | a :: p', b :: s' => Ascii.eqb a b && startswith p' s'
  | _ :: _, [] => false
  end.

(** [s[n:]] for [n >= 0] *)
Definition slice_from (n : nat) (s : str) : str := skipn n s.

(** [str(n)] for a length *)
Definition str_of_nat (n : nat) : str :=
  str_of_string (NilZero.string_of_uint (Nat.to_uint n)).

(** *** Numeric literals: [int(v)] and [float(v)] *)

Definition digit_val (c : ascii) : Z := Z.of_nat (code c - 48).

(** The rest of a [digitpart ::= digit (["_"] digit)*] after its first
    digit: the digits read and the text that follows them.  An underscore
    belongs to the part only when a digit follows it. *)
Fixpoint scan_digits (s : str) : list ascii * str :=
  match s with
  | c :: s' =>
      if isdigit c then
        let (ds, r) := scan_digits s' in (c :: ds, r)
      else if Ascii.eqb c "_" then
        match s' with
        | d :: _ =>
            if isdigit d then scan_digits s' else ([], s)
        | [] => ([], s)
        end
      else ([], s)
  | [] => ([], [])
  end.

(** A [digitpart] at the head of [s], if there is one. *)
Definition digitpart (s : str) : option (list ascii * str) :=
  match s with
  | c :: s' =>
      if isdigit c then
        let (ds, r) := scan_digits s' in Some (c :: ds, r)
      else None
  | [] => None
  end.

Definition Z_of_digits (ds : list ascii) : Z :=
  fold_left (fun acc c => 10 * acc + digit_val c)%Z ds 0%Z.

(** An optional sign: [true] for ["-"]. *)
Definition sign (s : str) : bool * str :=
  match s with
  | c :: s' =>
      if Ascii.eqb c "-" then (true, s')
      else if Ascii.eqb c "+" then (false, s')
      else (false, s)
  | [] => (false, [])
  end.

(** The blanks [int] and [float] skip around a literal: TAB..CR and the
    blank (C's [isspace]), and NEL and the no-break space, which CPython
    turns into blanks first; FS..US are not among them. *)
Definition isspace_c (c : ascii) : bool :=
  let n := code c in
  ((9 <=? n) && (n <=? 13)) || (n =? 32) || (n =? 133) || (n =? 160).

(** [sys.int_info.default_max_str_digits]: [int] refuses a literal of
    more digits (CPython 3.11, and the later releases of 3.7 to 3.10). *)
Definition max_str_digits : nat := 4300.

Definition exceeds_limit (digits : nat) : str :=
  ("Exceeds the limit (4300 digits) for integer string conversion: " : str)
  ++ ("value has " : str) ++ str_of_nat digits
  ++ (" digits; use sys.set_int_max_str_digits() to increase the limit"
      : str).

Definition invalid_literal : exn :=
  ValueError "invalid literal for int() with base 10".

(** [int(v)] in base 10.  The digits are counted where they end, before
    what follows them is looked at; an underscore there was refused
    while they were read.  (The message of an invalid literal goes on
    with the literal; no caller of the model reads it.) *)
Definition int (v : str) : res Z :=
  let (neg, s) := sign (strip_by isspace_c v) in
  match digitpart s with
  | Some (ds, r) =>
      if match r with c :: _ => Ascii.eqb c "_" | [] => false end
      then Raise invalid_literal
      else if max_str_digits <? length ds
      then Raise (ValueError (exceeds_limit (length ds)))
      else
        match r with
        | [] => Ok (if neg then - Z_of_digits ds else Z_of_digits ds)%Z
        | _ :: _ => Raise invalid_literal
        end
  | None => Raise invalid_literal
  end.

(** Binary64. *)
Definition prec : Z := 53.
Definition emax : Z := 1024.
Definition float := spec_float.

(** The binary64 value nearest to [(-1)^neg * m * 10^e]. *)
Definition float_of_decimal (neg : bool) (m e : Z) : float :=
  match m with
  | Zpos p =>
      match e with
      | Zneg k =>
          SFdiv prec emax
            (S754_finite neg p 0)
            (S754_finite false (Pos.pow 10 k) 0)
      | _ =>
          binary_normalize prec emax
            (if neg then - (m * 10 ^ e) else m * 10 ^ e)%Z 0 false
      end
  | _ => S754_zero neg
  end.

(** [float(n)] for an integer: the nearest binary64 value. *)
Definition float_of_Z (z : Z) : float :=
  binary_normalize prec emax z 0 false.

(** [exponent ::= ("e" | "E") [sign] digitpart], up to the end. *)
Definition exponent (s : str) : option Z :=
  match s with
  | [] => Some 0%Z
  | c :: s' =>
      if Ascii.eqb (lower_char c) "e" then
        let (neg, s'') := sign s' in
        match digitpart s'' with
        | Some (ds, []) =>
            Some (if neg then - Z_of_digits ds else Z_of_digits ds)%Z
        | _ => None
        end
      else None
  end.

(** [number ::= [digitpart] "." digitpart | digitpart ["."]] followed by
    an optional exponent, up to the end: mantissa digits and decimal
    exponent. *)
Definition floatnumber (s : str) : option (Z * Z) :=
  match digitpart s with
  | Some (ip, r) =>
      match r with
      | c :: r' =>
          if Ascii.eqb c "." then
            match digitpart r' with
            | Some (fp, r'') =>
                option_map
                  (fun e => (Z_of_digits (ip ++ fp),
                             e - Z.of_nat (length fp))%Z)
                  (exponent r'')
            | None =>
                option_map (fun e => (Z_of_digits ip, e)) (exponent r')
            end
          else option_map (fun e => (Z_of_digits ip, e)) (exponent r)
      | [] => Some (Z_of_digits ip, 0%Z)
      end
  | None =>
      match s with
      | c :: r' =>
          if Ascii.eqb c "." then
            match digitpart r' with
            | Some (fp, r'') =>
                option_map
                  (fun e => (Z_of_digits fp, e - Z.of_nat (length fp))%Z)
                  (exponent r'')
            | None => None
            end
          else None
      | [] => None
      end
  end.

(** [float(v)] for a string. *)
Definition float_of_str (v : str) : res float :=
  let (neg, s) := sign (strip_by isspace_c v) in
  let l := lower s in
  if str_eqb l "inf" || str_eqb l "infinity" then Ok (S754_infinity neg)
  else if str_eqb l "nan" then Ok S754_nan
  else
    match floatnumber s with
    | Some (m, e) => Ok (float_of_decimal neg m e)
    | None => Raise (ValueError "could not convert string to float")
    end.

End Py.

(** ** Typed scalars *)

(** What a cell of a column holds and what a token is coerced to.  A
    missing cell is [VFloat S754_nan], as pandas has it. *)
Inductive value : Type :=
| VInt (z : Z)
| VFloat (f : Py.float)
| VBool (b : bool)
| VStr (s : str).

Definition quote_chars : str := ["'"%char; "034"%char].

(** [QueryTool._coerce_value] (tools.py, lines 84-91).  The loop over
    [(int, float)] returns the first cast that does not raise; its bare
    [except] swallows whatever the cast raised. *)
Definition casters : list (str -> res value) :=
  [ fun v => n <- Py.int v ;; Ok (VInt n);
    fun v => f <- Py.float_of_str v ;; Ok (VFloat f) ].

Fixpoint first_cast (cs : list (str -> res value)) (v : str)
  : option value :=
  match cs with
  | caster :: cs' =>
      match caster v with
      | Ok x => Some x
      | Raise _ => first_cast cs' v
      end
  | [] => None
  end.

Definition _coerce_value (v : str) : res value :=
  match first_cast casters v with
  | Some x => Ok x
  | None =>
      if str_eqb (Py.lower v) "true" || str_eqb (Py.lower v) "false"
      then Ok (VBool (str_eqb (Py.lower v) "true"))
      else Ok (VStr (Py.strip_chars quote_chars v))
  end.

(** ** Regular expressions

    The fragment of Python's [re] the patterns of [QueryTool] are written
    in, with the matching order of a backtracking matcher: greedy
    repetition, alternatives from left to right, the first success wins. *)
Module Re.

(** An item of a bracketed set. *)
Inductive item : Type :=
| w_           (* \w *)
| s_           (* \s *)
| d_           (* \d *)
| ch (c : ascii).

Definition isword (c : ascii) : bool :=
  Py.isalnum c || Ascii.eqb c "_".

Definition item_mem (i : item) (c : ascii) : bool :=
  match i with
  | w_ => isword c
  | s_ => Py.isspace c
  | d_ => Py.isdigit c
  | ch a => Ascii.eqb a c
  end.

(** [[...]] and [[^...]]; a lone [\s] or [\d] is the set of that item. *)
Inductive cclass : Type :=
| In_ (items : list item)
| NotIn (items : list item).

Definition mem (cc : cclass) (c : ascii) : bool :=
  match cc with
  | In_ l => existsb (fun i => item_mem i c) l
  | NotIn l => negb (existsb (fun i => item_mem i c) l)
  end.

Inductive regex : Type :=
| Bol                          (* ^ *)
| Eol                          (* $ *)
| Lit (s : str)                (* literal text *)
| Star (cc : cclass)           (* cc*, greedy *)
| Plus (cc : cclass)           (* cc+, greedy *)
| Alt (r1 r2 : regex)          (* r1|r2 *)
| Group (r : regex)            (* (r) *)
| Seq (r1 r2 : regex).         (* r1 r2 *)

Fixpoint strip_prefix (l s : str) : option str :=
  match l, s with
  | [], _ => Some s
  | a :: l', b :: s' => if Ascii.eqb a b then strip_prefix l' s' else None
  | _ :: _, [] => None
  end.

Definition newline : ascii := "010"%char.

Section Exec.
Variable A : Type.
(** length of the subject string *)
Variable n : nat.

(** [cc*] on [s]: the longest run first, then shorter ones. *)
Fixpoint star (cc : cclass) (s : str) (k : str -> option A)
  : option A :=
  match s with
  | c :: s' =>
      if mem cc c then
        match star cc s' k with
        | Some x => Some x
        | None => k s
        end
      else k s
  | [] => k s
  end.

(** [exec r s caps k]: match [r] at the head of [s], having captured
    [caps] so far, and go on with [k] on what is left. *)
Fixpoint exec (r : regex) (s : str) (caps : list str)
              (k : str -> list str -> option A) : option A :=
  match r with
  | Bol => if length s =? n then k s caps else None
  | Eol =>
      match s with
      | [] => k s caps
      | [c] => if Ascii.eqb c newline then k s caps else None
      | _ => None
      end
  | Lit l =>
      match strip_prefix l s with
      | Some s' => k s' caps
      | None => None
      end
  | Star cc => star cc s (fun s' => k s' caps)
  | Plus cc =>
      match s with
      | c :: s' =>
          if mem cc c then star cc s' (fun s'' => k s'' caps) else None
      | [] => None
      end
  | Alt r1 r2 =>
      match exec r1 s caps k with
      | Some x => Some x
      | None => exec r2 s caps k
      end
  | Group r1 =>
      exec r1 s caps
        (fun s' caps' =>
           k s' (caps' ++ [firstn (length s - length s') s]))
  | Seq r1 r2 =>
      exec r1 s caps (fun s' caps' => exec r2 s' caps' k)
  end.
End Exec.
Arguments star {A} cc s k.
Arguments exec {A} n r s caps k.

(** A match object: [m.groups()] and [m.end()]. *)
Record Match : Type := { groups : list str; end_ : nat }.

(** [re.match(pattern, s)]: the match starts at position 0. *)
Definition match_ (pattern : regex) (s : str) : option Match :=
  exec (length s) pattern s []
    (fun rest caps =>
       Some {| groups := caps; end_ := length s - length rest |}).

(** [m.group(i)] for [i >= 1] *)
Definition group (m : Match) (i : nat) : res str :=
  match nth_error (groups m) (i - 1) with
  | Some g => Ok g
  | None => Raise (IndexError "no such group")
  end.

End Re.

Declare Scope re_scope.
Delimit Scope re_scope with re.
Bind Scope re_scope with Re.regex.
Notation "r1 ;; r2" := (Re.Seq r1 r2)
  (at level 61, right associativity) : re_scope.
Notation "r1 || r2" := (Re.Alt r1 r2) : re_scope.

Module QueryToolPatterns.
Import Re.

(** [[\w\-\s]], [\s], [[^\s]], [\d] *)
Definition colchars : cclass := In_ [w_; ch "-"; s_].
Definition spaces : cclass := In_ [s_].
Definition nonspace : cclass := NotIn [s_].
Definition digits : cclass := In_ [d_].

(** [r"^<words> ([\w\-\s]+)$"] *)
Definition column_pattern (words : str) : regex :=
  (Bol ;; Lit words ;; Group (Plus colchars) ;; Eol)%re.

(** [QueryTool.SIMPLE_PATTERNS] (tools.py, lines 69-77), in the order
    of the dictionary. *)
Definition SIMPLE_PATTERNS : list (regex * str) :=
  [ (column_pattern "average of ", "avg" : str);
    (column_pattern "mean of ", "avg" : str);
    (column_pattern "sum of ", "sum" : str);
    (column_pattern "max of ", "max" : str);
    (column_pattern "min of ", "min" : str);
    ((Bol ;; Lit "count rows" ;; Eol)%re, "count_rows" : str);
    (column_pattern "unique values of ", "unique" : str) ].

(** [==|=|>=|<=|>|<|!=], the alternatives of the second group of the
    filter pattern. *)
Definition operators : regex :=
  (Lit "==" || Lit "=" || Lit ">=" || Lit "<=" || Lit ">" || Lit "<"
   || Lit "!=")%re.

(** [QueryTool.FILTER_PATTERN] (tools.py, line 79). *)
Definition FILTER_PATTERN : regex :=
  (Bol ;; Lit "filter " ;; Group (Plus colchars) ;; Star spaces ;;
   Group operators ;;
   Star spaces ;; Group (Plus nonspace) ;; Star spaces ;;
   Lit "and show top" ;; Star spaces ;; Group (Plus digits) ;; Eol)%re.

End QueryToolPatterns.
Import QueryToolPatterns.

(** ** The tabular dataset

    The part of pandas the source calls, on a column-wise table: an index
    of row labels and named columns of cells, aligned by position. *)
Module Pd.

Definition Series := list value.

Record DataFrame : Type :=
  { index : list Z;
    columns : list (str * Series) }.

(** All columns are as long as the index. *)
Definition wf (df : DataFrame) : Prop :=
  Forall (fun c => length (snd c) = length (index df)) (columns df).

(** [len(df)] and [len(df.columns)] *)
Definition len (df : DataFrame) : nat := length (index df).
Definition ncols (df : DataFrame) : nat := length (columns df).

(** [col in df.columns] *)
Definition has_column (df : DataFrame) (col : str) : bool :=
  existsb (fun c => str_eqb (fst c) col) (columns df).

(** [df[col]] *)
Definition getitem (df : DataFrame) (col : str) : res Series :=
  match find (fun c => str_eqb (fst c) col) (columns df) with
  | Some c => Ok (snd c)
  | None => Raise (KeyError col)
  end.

(** A missing value. *)
Definition nan : Py.float := S754_nan.

Definition isna (v : value) : bool :=
  match v with
  | VFloat S754_nan => true
  | _ => false
  end.

(** *** Comparison of a cell with a scalar *)

Inductive cmpop : Type := Eq_ | Ne_ | Ge_ | Le_ | Gt_ | Lt_.

Definition decide_cmp (op : cmpop) (c : comparison) : bool :=
  match op, c with
  | Eq_, Eq => true
  | Ne_, (Lt | Gt) => true
  | Ge_, (Eq | Gt) => true
  | Le_, (Eq | Lt) => true
  | Gt_, Gt => true
  | Lt_, Lt => true
  | _, _ => false
  end.

(** Strings compare by code point, the shorter first on a tie. *)
Fixpoint str_compare (a b : str) : comparison :=
  match a, b with
  | [], [] => Eq
  | [], _ :: _ => Lt
  | _ :: _, [] => Gt
  | x :: a', y :: b' =>
      match Nat.compare (code x) (code y) with
      | Eq => str_compare a' b'
      | c => c
      end
  end.

Definition as_int (v : value) : option Z :=
  match v with
  | VInt z => Some z
  | VBool b => Some (if b then 1 else 0)%Z
  | _ => None
  end.

Definition as_float (v : value) : option Py.float :=
  match v with
  | VInt z => Some (Py.float_of_Z z)
  | VBool b => Some (Py.float_of_Z (if b then 1 else 0))
  | VFloat f => Some f
  | VStr _ => None
  end.

(** [a op x] for a cell [a] and a scalar [x].  A missing operand makes
    every comparison false and [!=] true; numbers compare by value
    (integers exactly, otherwise as binary64); text compares with text;
    text against a number is unequal, and has no order.  This is how
    pandas compares the cells of a column of objects, numbers with a
    number, and any column for equality; it refuses to order a column of
    numbers against a text by the dtype of the column, before it looks at
    a cell, so that the two differ on a column without a value that
    pandas holds as numbers ([cell_by_cell] below names where they
    agree). *)
Definition compare_cell (op : cmpop) (a x : value) : res bool :=
  if isna a || isna x then
    Ok match op with Ne_ => true | _ => false end
  else
    match a, x with
    | VStr s, VStr t => Ok (decide_cmp op (str_compare s t))
    | VStr _, _ | _, VStr _ =>
        match op with
        | Eq_ => Ok false
        | Ne_ => Ok true
        | _ => Raise (TypeError "invalid comparison")
        end
    | _, _ =>
        match as_int a, as_int x with
        | Some m, Some n => Ok (decide_cmp op (Z.compare m n))
        | _, _ =>
            match as_float a, as_float x with
            | Some f, Some g =>
                match SFcompare f g with
                | Some c => Ok (decide_cmp op c)
                | None => Ok match op with Ne_ => true | _ => false end
                end
            | _, _ => Raise (TypeError "invalid comparison")
            end
        end
    end.

(** [s op x]: the comparison, element-wise; the first cell that cannot
    be compared raises [TypeError] (with a message of pandas that the
    model does not spell out). *)
Fixpoint compare (op : cmpop) (s : Series) (x : value)
  : res (list bool) :=
  match s with
  | [] => Ok []
  | a :: s' =>
      b <- compare_cell op a x ;;
      bs <- compare op s' x ;;
      Ok (b :: bs)
  end.

(** Boolean indexing of a sequence by a mask. *)
Fixpoint select {A} (mask : list bool) (xs : list A) : list A :=
  match mask, xs with
  | b :: mask', x :: xs' =>
      if b then x :: select mask' xs' else select mask' xs'
  | _, _ => []
  end.

(** [df[mask]] *)
Definition getitem_mask (df : DataFrame) (mask : list bool)
  : DataFrame :=
  {| index := select mask (index df);
     columns := map (fun c => (fst c, select mask (snd c))) (columns df) |}.

(** [xs[:n]] *)
Definition slice_to {A} (n : Z) (xs : list A) : list A :=
  if (0 <=? n)%Z then firstn (Z.to_nat n) xs
  else firstn (length xs - Z.to_nat (- n)) xs.

(** [df.head(n)] *)
Definition head (df : DataFrame) (n : Z) : DataFrame :=
  {| index := slice_to n (index df);
     columns := map (fun c => (fst c, slice_to n (snd c))) (columns df) |}.

(** *** Casts and reductions *)

Definition float_of_cell (v : value) : res Py.float :=
  match v with
  | VInt z => Ok (Py.float_of_Z z)
  | VFloat f => Ok f
  | VBool b => Ok (Py.float_of_Z (if b then 1 else 0))
  | VStr s =>
      match Py.float_of_str s with
      | Ok f => Ok f
      | Raise _ =>
          Raise (ValueError (("could not convert string to float: '" : str)
                             ++ s ++ ("'" : str)))
      end
  end.

(** [s.astype(float)]: the first cell that cannot be cast raises. *)
Fixpoint astype_float (s : Series) : res (list Py.float) :=
  match s with
  | [] => Ok []
  | a :: s' =>
      f <- float_of_cell a ;;
      fs <- astype_float s' ;;
      Ok (f :: fs)
  end.

Definition is_nan (f : Py.float) : bool :=
  match f with S754_nan => true | _ => false end.

Definition fadd : Py.float -> Py.float -> Py.float :=
  SFadd Py.prec Py.emax.

(** [s.sum()] of a float column: missing values count as zero.  (The
    terms are added from left to right; numpy's blocking of long sums
    is not modelled.) *)
Definition sum (fs : list Py.float) : Py.float :=
  fold_left (fun acc f => if is_nan f then acc else fadd acc f)
    fs (S754_zero false).

(** [s.mean()] of a float column: over the values that are present. *)
Definition mean (fs : list Py.float) : Py.float :=
  match length (filter (fun f => negb (is_nan f)) fs) with
  | O => nan
  | S k => SFdiv Py.prec Py.emax (sum fs) (Py.float_of_Z (Z.of_nat (S k)))
  end.

(** [s.dropna()] *)
Definition dropna (s : Series) : Series :=
  filter (fun v => negb (isna v)) s.

(** [a == b] on two cells, as the hash table of [unique] sees it. *)
Definition same (a b : value) : bool :=
  match compare_cell Eq_ a b with
  | Ok true => true
  | _ => false
  end.

(** [s.unique()]: the values in order of appearance, each one kept when
    none of the values kept so far equals it. *)
Fixpoint unique_from (seen : list value) (s : Series) : Series :=
  match s with
  | [] => []
  | x :: s' =>
      if existsb (same x) seen then unique_from seen s'
      else x :: unique_from (seen ++ [x]) s'
  end.

Definition unique (s : Series) : Series := unique_from [] s.

(** [s.max()] and [s.min()]: over the values that are present, in the
    order of [compare_cell]; no value gives a missing value. *)
Fixpoint extreme_from (op : cmpop) (best : value) (s : Series)
  : res value :=
  match s with
  | [] => Ok best
  | x :: s' =>
      b <- compare_cell op x best ;;
      extreme_from op (if b then x else best) s'
  end.

Definition extreme (op : cmpop) (s : Series) : res value :=
  match dropna s with
  | [] => Ok (VFloat nan)
  | x :: s' => extreme_from op x s'
  end.

Definition max (s : Series) : res value := extreme Gt_ s.
Definition min (s : Series) : res value := extreme Lt_ s.

End Pd.

(** ** The store: [CSVTool] (tools.py, lines 10-28) *)

Record CSVTool : Type :=
  { df : option Pd.DataFrame;
    name : str }.

(** [CSVTool.__init__] *)
Definition CSVTool_init : CSVTool := {| df := None; name := [] |}.

(** [CSVTool.available] *)
Definition available (csv : CSVTool) : bool :=
  match df csv with
  | Some _ => true
  | None => false
  end.

Definition NO_CSV : exn := ValueError "No CSV loaded.".

(** [CSVTool.head] *)
Definition CSVTool_head (csv : CSVTool) (n : Z) : res Pd.DataFrame :=
  match df csv with
  | None => Raise NO_CSV
  | Some d => Ok (Pd.head d n)
  end.

(** ** The query engine: [QueryTool] (tools.py, lines 63-141) *)

(** What [QueryTool.simple] returns. *)
Inductive result : Type :=
| RInt (n : Z)                     (* int *)
| RFloat (f : Py.float)            (* float *)
| RScalar (v : value)              (* a cell, from max and min *)
| RList (l : list value)           (* list *)
| RTable (t : Pd.DataFrame)        (* DataFrame *)
| RStr (s : str).                  (* str *)

Definition column_not_found (col : str) : str :=
  ("Column '" : str) ++ col ++ ("' not found." : str).

(** The string of the last line of [simple] (tools.py, line 141). *)
Definition UNRECOGNIZED : str :=
  ("Unrecognized pattern. Try: 'average of <col>', 'sum of <col>', " : str)
  ++ ("'count rows', 'unique values of <col>', or " : str)
  ++ ("'filter <col> > 10 and show top 5'. " : str)
  ++ ("To use SQL, start with 'sql:'." : str).

(** The dictionary [ops] of [simple] (tools.py, lines 112-117). *)
Definition ops : list (str * Pd.cmpop) :=
  [ ("==" : str, Pd.Eq_); ("=" : str, Pd.Eq_);
    (">=" : str, Pd.Ge_); ("<=" : str, Pd.Le_);
    (">" : str, Pd.Gt_); ("<" : str, Pd.Lt_);
    ("!=" : str, Pd.Ne_) ].

(** [ops[op]] *)
Definition ops_getitem (op : str) : res Pd.cmpop :=
  match find (fun e => str_eqb (fst e) op) ops with
  | Some e => Ok (snd e)
  | None => Raise (KeyError op)
  end.

(** The filter branch of [simple] (tools.py, lines 106-119), on the groups
    of the match. *)
Definition simple_filter (d : Pd.DataFrame) (groups : list str)
  : res result :=
  match groups with
  | [col; op; val; topn] =>
      let col := Py.strip col in
      if negb (Pd.has_column d col) then Ok (RStr (column_not_found col))
      else
        val <- _coerce_value val ;;
        topn <- Py.int topn ;;
        f <- ops_getitem op ;;
        s <- Pd.getitem d col ;;
        mask <- Pd.compare f s val ;;
        Ok (RTable (Pd.head (Pd.getitem_mask d mask) topn))
  | _ => Raise (ValueError "wrong number of values to unpack")
  end.

(** The body of the loop of [simple] once the column is known (tools.py,
    lines 128-139): [None] when no branch returns. *)
Definition column_action (d : Pd.DataFrame) (kind col : str)
  : res (option result) :=
  if negb (Pd.has_column d col)
  then Ok (Some (RStr (column_not_found col)))
  else if str_eqb kind "avg" then
    s <- Pd.getitem d col ;;
    fs <- Pd.astype_float s ;;
    Ok (Some (RFloat (Pd.mean fs)))
  else if str_eqb kind "sum" then
    s <- Pd.getitem d col ;;
    fs <- Pd.astype_float s ;;
    Ok (Some (RFloat (Pd.sum fs)))
  else if str_eqb kind "max" then
    s <- Pd.getitem d col ;;
    v <- Pd.max s ;;
    Ok (Some (RScalar v))
  else if str_eqb kind "min" then
    s <- Pd.getitem d col ;;
    v <- Pd.min s ;;
    Ok (Some (RScalar v))
  else if str_eqb kind "unique" then
    s <- Pd.getitem d col ;;
    Ok (Some (RList (Pd.unique (Pd.dropna s))))
  else Ok None.

(** One turn of the loop on a pattern that matched (tools.py, lines
    125-139). *)
Definition matched_action (d : Pd.DataFrame) (kind : str) (m : Re.Match)
  : res (option result) :=
  if str_eqb kind "count_rows" then
    Ok (Some (RInt (Z.of_nat (Pd.len d))))
  else
    g <- Re.group m 1 ;;
    column_action d kind (Py.strip g).

(** The loop over [SIMPLE_PATTERNS] (tools.py, lines 122-139): [None]
    when the loop ends without a [return]. *)
Fixpoint simple_loop (d : Pd.DataFrame) (p : str)
    (patterns : list (Re.regex * str)) : res (option result) :=
  match patterns with
  | [] => Ok None
  | (pat, kind) :: rest =>
      match Re.match_ pat p with
      | Some m =>
          r <- matched_action d kind m ;;
          match r with
          | Some x => Ok (Some x)
          | None => simple_loop d p rest
          end
      | None => simple_loop d p rest
      end
  end.

(** [QueryTool.simple] (tools.py, lines 98-141).  The guard
    [if not self.csv.available()] is the test [self.csv.df is None]. *)
Definition simple (csv : CSVTool) (prompt : str) : res result :=
  match df csv with
  | None => Raise NO_CSV
  | Some d =>
      let p := Py.lower (Py.strip prompt) in
      match Re.match_ FILTER_PATTERN p with
      | Some m => simple_filter d (Re.groups m)
      | None =>
          r <- simple_loop d p SIMPLE_PATTERNS ;;
          match r with
          | Some x => Ok x
          | None => Ok (RStr UNRECOGNIZED)
          end
      end
  end.

(** ** Stateful code

    A method that mutates [self] is a function from the state to an
    outcome and the state it leaves; what was assigned before a [raise]
    stays assigned. *)
Definition M (S A : Type) : Type := S -> res A * S.

Definition ret {S A} (a : A) : M S A := fun s => (Ok a, s).

Definition lift {S A} (r : res A) : M S A := fun s => (r, s).

Definition mbind {S A B} (m : M S A) (f : A -> M S B) : M S B :=
  fun s =>
    match m s with
    | (Ok a, s') => f a s'
    | (Raise e, s') => (Raise e, s')
    end.

Definition get {S} : M S S := fun s => (Ok s, s).
Definition modify {S} (f : S -> S) : M S unit := fun s => (Ok tt, f s).

Notation "x <~ m ;; k" := (mbind m (fun x => k))
  (at level 61, m at next level, right associativity).
Notation "m ;;; k" := (mbind m (fun _ => k))
  (at level 61, right associativity).

(** [self.memory[-n:]] *)
Definition last_n {A} (n : nat) (l : list A) : list A :=
  skipn (length l - n) l.

(** The agent: [CSVAgent] (agent.py).  The profile, query and chart tools
    hold no state of their own, only the reference to [csv]. *)
Record CSVAgent : Type :=
  { csv : CSVTool;
    memory : list str }.

(** [CSVAgent.__init__] *)
Definition CSVAgent_init : CSVAgent :=
  {| csv := CSVTool_init; memory := [] |}.

(** [CSVAgent._remember] (agent.py, lines 15-18). *)
Definition _remember (role content : str) : M CSVAgent unit :=
  modify (fun a =>
    {| csv := csv a;
       memory := memory a ++ [Py.upper role ++ (": " : str) ++ content] |}) ;;;
  a <~ get ;;
  if 50 <? length (memory a)
  then modify (fun a => {| csv := csv a; memory := last_n 50 (memory a) |})
  else ret tt.

(** [type(res).__name__] for what [simple] and [sql] return; the name of
    the type of a cell from [max] or [min] is [cell_type]. *)
Definition type_name (cell_type : str) (r : result) : str :=
  match r with
  | RInt _ => "int"
  | RFloat _ => "float"
  | RScalar _ => cell_type
  | RList _ => "list"
  | RTable _ => "DataFrame"
  | RStr _ => "str"
  end.

Definition times_sign : str := ["215"%char].

(** The message of [CSVTool.load]. *)
Definition loaded_message (filename : str) (d : Pd.DataFrame) : str :=
  ("Loaded '" : str) ++ filename ++ ("' with " : str)
  ++ Py.str_of_nat (Pd.len d) ++ (" rows " : str) ++ times_sign
  ++ (" " : str) ++ Py.str_of_nat (Pd.ncols d) ++ (" columns." : str).

Section Library.

(** [pd.read_csv(io.BytesIO(file_bytes), **read_csv_kwargs)] and
    [pandasql.sqldf(query, {"df": df})]: the parser and the SQL engine
    are libraries; each returns a table or raises. *)
Variable kwargs : Type.
Variable read_csv : list Byte.byte -> kwargs -> res Pd.DataFrame.
Variable sqldf : str -> Pd.DataFrame -> res Pd.DataFrame.

(** [type(res).__name__] of the cell that [max] or [min] return for a
    prompt on a store.  numpy and Python name the type by the dtype that
    the column has and by the version of the library ([int64], [uint64],
    [float64], [float], [bool], [bool_], [str], ...); a table of cells
    does not fix it. *)
Variable cell_type : CSVTool -> str -> str.

(** [CSVTool.load] (tools.py, lines 16-21). *)
Definition load (file_bytes : list Byte.byte) (filename : str)
    (read_csv_kwargs : kwargs) : M CSVTool str :=
  d <~ lift (read_csv file_bytes read_csv_kwargs) ;;
  modify (fun c => {| df := Some d; name := name c |}) ;;;
  modify (fun c => {| df := df c; name := filename |}) ;;;
  ret (loaded_message filename d).

(** [QueryTool.sql] (tools.py, lines 93-96). *)
Definition sql (c : CSVTool) (query : str) : res Pd.DataFrame :=
  match df c with
  | None => Raise NO_CSV
  | Some d => sqldf query d
  end.

(** A method of the tool [self.csv], run on the agent. *)
Definition on_csv {A} (m : M CSVTool A) : M CSVAgent A :=
  fun a =>
    let (r, c) := m (csv a) in
    (r, {| csv := c; memory := memory a |}).

(** [CSVAgent.load_csv] (agent.py, lines 21-24). *)
Definition load_csv (file_bytes : list Byte.byte) (filename : str)
    (kw : kwargs) : M CSVAgent str :=
  msg <~ on_csv (load file_bytes filename kw) ;;
  _remember "system" msg ;;;
  ret msg.

(** [CSVAgent.ask] (agent.py, lines 41-48). *)
Definition ask (text : str) : M CSVAgent result :=
  _remember "user" text ;;;
  a <~ get ;;
  r <~ (if Py.startswith "sql:" (Py.lower (Py.strip text))
        then
          t <~ lift (sql (csv a)
                       (Py.strip (Py.slice_from 4 (Py.strip text)))) ;;
          ret (RTable t)
        else lift (simple (csv a) text)) ;;
  _remember "agent" (type_name (cell_type (csv a) text) r) ;;;
  ret r.

End Library.
Arguments load {kwargs} read_csv file_bytes filename read_csv_kwargs.
Arguments load_csv {kwargs} read_csv file_bytes filename kw.

(** ** The rest of the tools and of the agent *)

(** [ChartTool.available_columns] (tools.py, lines 148-150). *)
Definition available_columns (c : CSVTool) : list str :=
  match df c with
  | None => []
  | Some d => map fst (Pd.columns d)
  end.

(** [df[labels]] for a list of labels: the columns that bear each label,
    label by label, under the index of [df]; a label that no column bears
    raises [KeyError]. *)
Fixpoint columns_labelled (cols : list (str * Pd.Series))
    (labels : list str) : res (list (str * Pd.Series)) :=
  match labels with
  | [] => Ok []
  | l :: rest =>
      match filter (fun c => str_eqb (fst c) l) cols with
      | [] => Raise (KeyError l)
      | found =>
          more <- columns_labelled cols rest ;;
          Ok (found ++ more)
      end
  end.

Definition getitem_list (d : Pd.DataFrame) (labels : list str)
  : res Pd.DataFrame :=
  cols <- columns_labelled (Pd.columns d) labels ;;
  Ok {| Pd.index := Pd.index d; Pd.columns := cols |}.

(** [[c for c in [x, y] if c is not None]] *)
Definition chart_labels (x : str) (y : option str) : list str :=
  x :: match y with
       | Some y' => [y']
       | None => []
       end.

(** [ChartTool.data_for_chart] (tools.py, lines 152-158); the source does
    not read [kind]. *)
Definition data_for_chart (c : CSVTool) (x : str) (y : option str)
    (kind : str) : res Pd.DataFrame :=
  match df c with
  | None => Raise NO_CSV
  | Some d =>
      if negb (Pd.has_column d x)
      then Raise (ValueError (column_not_found x))
      else
        match y with
        | Some y' =>
            if negb (Pd.has_column d y')
            then Raise (ValueError (column_not_found y'))
            else getitem_list d (chart_labels x y)
        | None => getitem_list d (chart_labels x y)
        end
  end.

(** [RangeIndex(n)] *)
Definition range_index (n : nat) : list Z := map Z.of_nat (seq 0 n).

(** [s.notnull().sum()], [s.isnull().sum()] and [s.nunique(dropna=True)]
    of a column. *)
Definition count_notnull (s : Pd.Series) : Z :=
  Z.of_nat (length (filter (fun v => negb (Pd.isna v)) s)).

Definition count_null (s : Pd.Series) : Z :=
  Z.of_nat (length (filter Pd.isna s)).

Definition nunique (s : Pd.Series) : Z :=
  Z.of_nat (length (Pd.unique (Pd.dropna s))).

Section Dtypes.

(** [str(t)] for the dtype [t] that pandas gave a column. *)
Variable dtype_of : str * Pd.Series -> str.

(** [ProfileTool.schema] (tools.py, lines 35-44): one row for each column
    of the dataset. *)
Definition schema (c : CSVTool) : res Pd.DataFrame :=
  match df c with
  | None => Raise NO_CSV
  | Some d =>
      Ok {| Pd.index := range_index (Pd.ncols d);
            Pd.columns :=
              [ ("column" : str,
                 map (fun col => VStr (fst col)) (Pd.columns d));
                ("dtype" : str,
                 map (fun col => VStr (dtype_of col)) (Pd.columns d));
                ("non_null" : str,
                 map (fun col => VInt (count_notnull (snd col)))
                   (Pd.columns d));
                ("nulls" : str,
                 map (fun col => VInt (count_null (snd col)))
                   (Pd.columns d));
                ("unique" : str,
                 map (fun col => VInt (nunique (snd col)))
                   (Pd.columns d)) ] |}
  end.

(** [CSVAgent.profile_schema] (agent.py, lines 29-30). *)
Definition profile_schema (a : CSVAgent) : res Pd.DataFrame :=
  schema (csv a).

End Dtypes.

(** [CSVAgent.head] (agent.py, lines 26-27); [n] is 5 when it is not
    given. *)
Definition CSVAgent_head (a : CSVAgent) (n : Z) : res Pd.DataFrame :=
  CSVTool_head (csv a) n.

Definition head_default : Z := 5.

(** [CSVAgent.chart_data] (agent.py, lines 50-51). *)
Definition chart_data (a : CSVAgent) (x : str) (y : option str)
    (kind : str) : res Pd.DataFrame :=
  data_for_chart (csv a) x y kind.

(** [CSVAgent.available_columns] (agent.py, lines 53-54). *)
Definition CSVAgent_available_columns (a : CSVAgent) : list str :=
  available_columns (csv a).

(** ** Notions the statements are written with *)

(** The coercion in the words of the specification: the integer attempt,
    then the float attempt, then the keywords [true] and [false] in any
    letter case, else the text without its surrounding quote characters. *)
Definition is_keyword (t : str) (w : str) : bool := str_eqb (Py.lower t) w.

Definition coerce_in_order (t : str) : value :=
  match Py.int t with
  | Ok n => VInt n
  | Raise _ =>
      match Py.float_of_str t with
      | Ok f => VFloat f
      | Raise _ =>
          if is_keyword t "true" then VBool true
          else if is_keyword t "false" then VBool false
          else VStr (Py.strip_chars quote_chars t)
      end
  end.

(** What a pattern denotes: [den n r s s' caps] when [r] matches at the
    head of [s] (a suffix of a subject of length [n]), leaves [s'] and
    captures [caps]. *)
Fixpoint den (n : nat) (r : Re.regex) (s s' : str) (caps : list str)
  : Prop :=
  match r with
  | Re.Bol => s' = s /\ caps = [] /\ length s = n
  | Re.Eol => s' = s /\ caps = [] /\ (s = [] \/ s = [Re.newline])
  | Re.Lit l => s = l ++ s' /\ caps = []
  | Re.Star cc =>
      exists run, s = run ++ s' /\ caps = []
                  /\ Forall (fun c => Re.mem cc c = true) run
  | Re.Plus cc =>
      exists run, s = run ++ s' /\ caps = [] /\ run <> []
                  /\ Forall (fun c => Re.mem cc c = true) run
  | Re.Alt r1 r2 => den n r1 s s' caps \/ den n r2 s s' caps
  | Re.Group r1 =>
      exists g c, s = g ++ s' /\ den n r1 s s' c /\ caps = c ++ [g]
  | Re.Seq r1 r2 =>
      exists mid c1 c2,
        den n r1 s mid c1 /\ den n r2 mid s' c2 /\ caps = c1 ++ c2
  end.

(** A prompt, trimmed and lowercased, of the filter shape, with its four
    groups. *)
Definition filter_query (p col op val topn : str) : Prop :=
  exists m, Re.match_ FILTER_PATTERN p = Some m
            /\ Re.groups m = [col; op; val; topn].

(** A prompt, trimmed and lowercased, of one of the shapes of
    [SIMPLE_PATTERNS] that name a column, with its kind and its group. *)
Definition column_query (p kind col : str) : Prop :=
  exists pat m, In (pat, kind) SIMPLE_PATTERNS
                /\ str_eqb kind "count_rows" = false
                /\ Re.match_ pat p = Some m
                /\ Re.groups m = [col].

(** All the shapes, the filter shape first. *)
Definition shapes_in_order : list (Re.regex * str) :=
  (FILTER_PATTERN, "filter" : str) :: SIMPLE_PATTERNS.

(** The first pattern of a list that matches, with its match. *)
Fixpoint first_match (pats : list (Re.regex * str)) (p : str)
  : option (str * Re.Match) :=
  match pats with
  | [] => None
  | (pat, kind) :: rest =>
      match Re.match_ pat p with
      | Some m => Some (kind, m)
      | None => first_match rest p
      end
  end.

(** The questions the engine knows, as the documentation lists them. *)
Inductive question : Type :=
| QFilter (col op val topn : str)  (* filter <col> <op> <val> and show
                                      top <N> *)
| QAverage (col : str)             (* average of <col>, mean of <col> *)
| QSum (col : str)                 (* sum of <col> *)
| QMax (col : str)                 (* max of <col> *)
| QMin (col : str)                 (* min of <col> *)
| QCountRows                       (* count rows *)
| QUnique (col : str).             (* unique values of <col> *)

(** A text that is, as a whole, the filter form; the words [words] and
    the name of a column; the words [count rows]. *)
Definition filter_form (p : str) : option question :=
  match Re.match_ FILTER_PATTERN p with
  | Some m =>
      match Re.groups m with
      | [col; op; val; topn] => Some (QFilter col op val topn)
      | _ => None
      end
  | None => None
  end.

Definition column_form (words : str) (q : str -> question) (p : str)
  : option question :=
  match Re.match_ (column_pattern words) p with
  | Some m =>
      match Re.groups m with
      | [col] => Some (q col)
      | _ => None
      end
  | None => None
  end.

Definition count_form (p : str) : option question :=
  match Re.match_ (Re.Bol ;; Re.Lit "count rows" ;; Re.Eol)%re p with
  | Some _ => Some QCountRows
  | None => None
  end.

Fixpoint first_some {A} (l : list (option A)) : option A :=
  match l with
  | [] => None
  | Some a :: _ => Some a
  | None :: rest => first_some rest
  end.

(** The question a trimmed, lowercased text asks: the first form it has,
    the filter form before the others. *)
Definition classify (p : str) : option question :=
  first_some
    [ filter_form p;
      column_form "average of " QAverage p;
      column_form "mean of " QAverage p;
      column_form "sum of " QSum p;
      column_form "max of " QMax p;
      column_form "min of " QMin p;
      count_form p;
      column_form "unique values of " QUnique p ].

(** The answer to a question about a column: the message when the table
    has no such column. *)
Definition on_column (d : Pd.DataFrame) (col : str)
    (k : Pd.Series -> res result) : res result :=
  if Pd.has_column d (Py.strip col)
  then s <- Pd.getitem d (Py.strip col) ;; k s
  else Ok (RStr (column_not_found (Py.strip col))).

(** The answer to each question: the mean and the sum of the column cast
    to floats, its largest and its smallest cell, the number of rows, the
    distinct values that are present; the filter as [simple_filter] does
    it. *)
Definition answer (d : Pd.DataFrame) (q : question) : res result :=
  match q with
  | QFilter col op val topn => simple_filter d [col; op; val; topn]
  | QAverage col =>
      on_column d col
        (fun s => fs <- Pd.astype_float s ;; Ok (RFloat (Pd.mean fs)))
  | QSum col =>
      on_column d col
        (fun s => fs <- Pd.astype_float s ;; Ok (RFloat (Pd.sum fs)))
  | QMax col => on_column d col (fun s => v <- Pd.max s ;; Ok (RScalar v))
  | QMin col => on_column d col (fun s => v <- Pd.min s ;; Ok (RScalar v))
  | QCountRows => Ok (RInt (Z.of_nat (Pd.len d)))
  | QUnique col =>
      on_column d col (fun s => Ok (RList (Pd.unique (Pd.dropna s))))
  end.

(** What the engine does for a shape that matched. *)
Definition perform (d : Pd.DataFrame) (kind : str) (m : Re.Match)
  : res result :=
  if str_eqb kind "filter" then simple_filter d (Re.groups m)
  else
    r <- matched_action d kind m ;;
    match r with
    | Some x => Ok x
    | None => Ok (RStr UNRECOGNIZED)
    end.

(** The table row by row: the label of a row and its cells by column
    name. *)
Definition row : Type := (Z * list (str * value))%type.

Definition cell_at (s : Pd.Series) (i : nat) : value :=
  nth i s (VFloat Pd.nan).

Definition row_at (d : Pd.DataFrame) (i : nat) : row :=
  (nth i (Pd.index d) 0%Z,
   map (fun c => (fst c, cell_at (snd c) i)) (Pd.columns d)).

Definition rows (d : Pd.DataFrame) : list row :=
  map (row_at d) (seq 0 (Pd.len d)).

Definition row_cell (r : row) (col : str) : option value :=
  option_map snd (find (fun c => str_eqb (fst c) col) (snd r)).

(** The row has a cell [a] in column [col] with [a op x]. *)
Definition satisfies (col : str) (op : Pd.cmpop) (x : value) (r : row)
  : bool :=
  match row_cell r col with
  | Some a =>
      match Pd.compare_cell op a x with
      | Ok true => true
      | _ => false
      end
  | None => false
  end.

(** The entry [_remember] stores, and a run of [_remember] calls. *)
Definition entry (rc : str * str) : str :=
  Py.upper (fst rc) ++ (": " : str) ++ snd rc.

Fixpoint record_all (turns : list (str * str)) (a : CSVAgent) : CSVAgent :=
  match turns with
  | [] => a
  | (role, content) :: rest =>
      record_all rest (snd (_remember role content a))
  end.

(** The store of an agent holds the table [d]. *)
Definition loaded (a : CSVAgent) (d : Pd.DataFrame) : Prop :=
  df (csv a) = Some d.


(** A text with no space at its end, as [strip] leaves it. *)
Definition trimmed (p : str) : Prop :=
  forall pre c, p = pre ++ [c] -> Py.isspace c = false.

(** The operators of the dictionary [ops], and the kinds of
    [SIMPLE_PATTERNS] that the loop of [simple] has a branch for. *)
Definition op_texts : list str := map fst ops.

Definition known_kind (kind : str) : bool :=
  existsb (str_eqb kind)
    ["avg" : str; "sum" : str; "max" : str; "min" : str; "unique" : str;
     "count_rows" : str].

(** A prompt that names a column: of a column shape or of the filter
    shape. *)
Definition names_column (p col : str) : Prop :=
  (exists kind, column_query p kind col)
  \/ (exists op val topn, filter_query p col op val topn).

(** The kinds of the mean and of the sum, and what they reduce a cast
    column to. *)
Definition numeric_kind (kind : str) : Prop :=
  kind = ("avg" : str) \/ kind = ("sum" : str).

Definition reduce (kind : str) (fs : list Py.float) : Py.float :=
  if str_eqb kind "avg" then Pd.mean fs else Pd.sum fs.

(** No value kept equals a value kept before it. *)
Definition distinct (u : list value) : Prop :=
  ForallOrdPairs (fun earlier later => Pd.same later earlier = false) u.


(** The cell [a] compares as asked with [x]. *)
Definition holds (f : Pd.cmpop) (x : value) (a : value) : bool :=
  match Pd.compare_cell f a x with
  | Ok true => true
  | _ => false
  end.

(** The positions of a mask that are set, in increasing order. *)
Definition positions (mask : list bool) : list nat :=
  filter (fun i => nth i mask false) (seq 0 (length mask)).

(** The text [rest] does not go on with a character of the class. *)
Definition stops (cc : Re.cclass) (rest : str) : Prop :=
  match rest with
  | [] => True
  | c :: _ => Re.mem cc c = false
  end.

(** The column names of a table are pairwise different, as [read_csv]
    makes them. *)
Definition distinct_names (d : Pd.DataFrame) : Prop :=
  NoDup (map fst (Pd.columns d)).

(** A text of blanks only. *)
Definition blank (ws : str) : Prop :=
  Forall (fun c => Py.isspace c = true) ws.

(** The cells of a column of integers. *)
Definition int_cells (zs : list Z) : Pd.Series := map VInt zs.

(** The character is not one a column group of a pattern can hold. *)
Definition outside_colchars (ch : ascii) : Prop :=
  Re.mem colchars ch = false.

(** The order of a cell and a value, where they have one: texts by
    their code points, numbers by their value (integers and booleans
    exactly, otherwise as binary64); a missing cell or value has none,
    and a text has none with a number. *)
Definition order (a x : value) : option comparison :=
  if Pd.isna a || Pd.isna x then None
  else
    match a, x with
    | VStr s, VStr t => Some (Pd.str_compare s t)
    | VStr _, _ | _, VStr _ => None
    | _, _ =>
        match Pd.as_int a, Pd.as_int x with
        | Some m, Some n => Some (m ?= n)%Z
        | _, _ =>
            match Pd.as_float a, Pd.as_float x with
            | Some f, Some g => SFcompare f g
            | _, _ => None
            end
        end
    end.

(** What an operator, by the text it is written with, makes of an
    order: [==] and [=] want equal, [>] greater, [>=] not smaller, and so
    on; what has no order is different, and nothing else. *)
Definition op_decides (op : str) (c : option comparison) : bool :=
  match c with
  | Some Eq =>
      existsb (str_eqb op) ["==" : str; "=" : str; ">=" : str; "<=" : str]
  | Some Lt => existsb (str_eqb op) ["<" : str; "<=" : str; "!=" : str]
  | Some Gt => existsb (str_eqb op) [">" : str; ">=" : str; "!=" : str]
  | None => str_eqb op "!="
  end.

(** The cell of the row in column [col] stands to [x] as [op] says. *)
Definition matches (col op : str) (x : value) (r : row) : bool :=
  match row_cell r col with
  | Some a => op_decides op (order a x)
  | None => false
  end.

(** Where pandas compares a column with a value as [Pd.compare] does.
    It compares a column of objects cell by cell, and numbers with a
    number; it tests a column of numbers against a text for equality cell
    by cell; but it refuses to order such a column against a text by the
    dtype of the column, whatever the cells.  A column that holds a text
    is a column of objects; one with no text may be either. *)
Definition cell_by_cell (f : Pd.cmpop) (x : value) (s : Pd.Series)
  : Prop :=
  f = Pd.Eq_ \/ f = Pd.Ne_
  \/ (forall t, x <> VStr t)
  \/ Exists (fun a => exists t, a = VStr t) s.

(** ** Sample data *)

Definition sample : Pd.DataFrame :=
  {| Pd.index := [0; 1; 2; 3; 4; 5]%Z;
     Pd.columns :=
       [ ("city" : str,
          [VStr "paris"; VStr "rome"; VFloat Pd.nan; VStr "paris";
           VStr "oslo"; VStr "rome"]);
         ("price" : str,
          [VInt 120; VInt 80; VInt 300; VInt 101; VInt 100; VInt 250]);
         ("Qty" : str,
          [VInt 1; VInt 2; VInt 3; VInt 4; VInt 5; VInt 6]) ] |}.

Definition sample_store : CSVTool :=
  {| df := Some sample; name := "sales.csv" |}.

Definition sample_agent : CSVAgent :=
  {| csv := sample_store; memory := [] |}.

(** A column of three prices. *)
Definition three_prices : Pd.DataFrame :=
  {| Pd.index := [0; 1; 2]%Z;
     Pd.columns := [ ("price" : str, [VInt 10; VInt 20; VInt 30]) ] |}.


(** A parser that accepts one input only, and an engine that refuses
    every query. *)
Definition parse_sample (b : list Byte.byte) (_ : unit)
  : res Pd.DataFrame :=
  match b with
  | [] => Raise (ValueError "No columns to parse from file")
  | _ => Ok sample
  end.

Definition no_sql (_ : str) (_ : Pd.DataFrame) : res Pd.DataFrame :=
  Raise (ValueError "no engine").

(** The names numpy 2 gives the cells of the sample tables, which hold
    64-bit integers in the columns that [max] and [min] are asked for. *)
Definition sample_cell_type (_ : CSVTool) (_ : str) : str := "int64".

Definition sixty_turns : list (str * str) :=
  map (fun i => ("user" : str, Py.str_of_nat i)) (seq 1 60).

(** A table whose column has a name outside ASCII: [caf] and the letter
    233, e with an acute accent. *)
Definition cafe : str := ("caf" : str) ++ ["233"%char].

Definition cafe_store : CSVTool :=
  {| df := Some {| Pd.index := [0; 1]%Z;
                   Pd.columns := [ (cafe, [VInt 1; VInt 2]) ] |};
     name := "cafe.csv" |}.

(** The no-break space. *)
Definition nbsp : ascii := "160"%char.

(** A table with a column that has no value at all. *)
Definition gaps : Pd.DataFrame :=
  {| Pd.index := [0; 1]%Z;
     Pd.columns :=
       [ ("gap" : str, [VFloat Pd.nan; VFloat Pd.nan]);
         ("n" : str, [VInt 3; VInt (-4)]) ] |}.

Definition gaps_store : CSVTool :=
  {| df := Some gaps; name := "gaps.csv" |}.

(** The dtype names of the sample tables by the kind of the first cell. *)
Definition sample_dtype (col : str * Pd.Series) : str :=
  match snd col with
  | VInt _ :: _ => "int64"
  | VFloat _ :: _ => "float64"
  | VBool _ :: _ => "bool"
  | _ => "object"
  end.

(** * Properties *)

(** ** Characters and strings *)

Lemma str_eqb_eq (a b : str) : str_eqb a b = true <-> a = b.
Proof.
  unfold str_eqb. destruct (list_eq_dec ascii_dec a b); split; congruence.
Qed.

Lemma str_eqb_refl (a : str) : str_eqb a a = true.
Proof. now apply str_eqb_eq. Qed.

Lemma str_eqb_neq (a b : str) : str_eqb a b = false <-> a <> b.
Proof.
  unfold str_eqb. destruct (list_eq_dec ascii_dec a b); split; congruence.
Qed.

Ltac each_char c :=
  destruct c as [[] [] [] [] [] [] [] []]; try reflexivity; try discriminate.

Lemma lower_char_idem c : Py.lower_char (Py.lower_char c) = Py.lower_char c.
Proof. each_char c. Qed.

Lemma lower_upper_char c : Py.lower_char (Py.upper_char c) = Py.lower_char c.
Proof. each_char c. Qed.

Lemma isspace_lower_char c : Py.isspace (Py.lower_char c) = Py.isspace c.
Proof. each_char c. Qed.

Lemma isspace_upper_char c : Py.isspace (Py.upper_char c) = Py.isspace c.
Proof. each_char c. Qed.


Lemma lower_idem s : Py.lower (Py.lower s) = Py.lower s.
Proof.
  unfold Py.lower. rewrite map_map. apply map_ext, lower_char_idem.
Qed.

Lemma lower_upper s : Py.lower (Py.upper s) = Py.lower s.
Proof.
  unfold Py.lower, Py.upper. rewrite map_map.
  apply map_ext, lower_upper_char.
Qed.

Section Strip.
Variable f : ascii -> bool.

Lemma lstrip_by_map (g : ascii -> ascii) s :
  (forall c, f (g c) = f c) ->
  Py.lstrip_by f (map g s) = map g (Py.lstrip_by f s).
Proof.
  intros Hg. induction s as [|c s IH]; simpl; [reflexivity|].
  rewrite Hg. destruct (f c); [exact IH | reflexivity].
Qed.

Lemma strip_by_map (g : ascii -> ascii) s :
  (forall c, f (g c) = f c) ->
  Py.strip_by f (map g s) = map g (Py.strip_by f s).
Proof.
  intros Hg. unfold Py.strip_by, Py.rstrip_by.
  rewrite lstrip_by_map by exact Hg.
  rewrite <- map_rev, lstrip_by_map by exact Hg.
  now rewrite map_rev.
Qed.

Lemma lstrip_by_suffix s : exists pre, s = pre ++ Py.lstrip_by f s.
Proof.
  induction s as [|c s [pre IH]]; simpl.
  - now exists [].
  - destruct (f c).
    + exists (c :: pre). simpl. now f_equal.
    + now exists [].
Qed.

Lemma lstrip_by_head s c r : Py.lstrip_by f s = c :: r -> f c = false.
Proof.
  induction s as [|a s IH]; simpl; [discriminate|].
  destruct (f a) eqn:E; [exact IH|].
  intros [= <- _]. exact E.
Qed.

Lemma lstrip_by_incl s x : In x (Py.lstrip_by f s) -> In x s.
Proof.
  destruct (lstrip_by_suffix s) as [pre E]. intros H.
  rewrite E. apply in_or_app. now right.
Qed.

Lemma strip_by_incl s x : In x (Py.strip_by f s) -> In x s.
Proof.
  unfold Py.strip_by, Py.rstrip_by. intros H.
  apply in_rev, lstrip_by_incl, in_rev in H.
  now apply lstrip_by_incl in H.
Qed.

Lemma strip_by_last s pre c : Py.strip_by f s = pre ++ [c] -> f c = false.
Proof.
  unfold Py.strip_by, Py.rstrip_by. intros H.
  apply (f_equal (@rev ascii)) in H.
  rewrite rev_involutive, rev_app_distr in H. simpl in H.
  now apply lstrip_by_head in H.
Qed.

Lemma lstrip_by_noop s :
  Forall (fun c => f c = false) s -> Py.lstrip_by f s = s.
Proof.
  destruct 1 as [|c s Hc _]; simpl; [reflexivity|]. now rewrite Hc.
Qed.

Lemma strip_by_noop s :
  Forall (fun c => f c = false) s -> Py.strip_by f s = s.
Proof.
  intros H. unfold Py.strip_by, Py.rstrip_by.
  rewrite (lstrip_by_noop _ H), lstrip_by_noop, rev_involutive; auto.
  now apply Forall_rev.
Qed.
End Strip.

Lemma strip_lower s : Py.strip (Py.lower s) = Py.lower (Py.strip s).
Proof. apply strip_by_map, isspace_lower_char. Qed.

Lemma strip_upper s : Py.strip (Py.upper s) = Py.upper (Py.strip s).
Proof. apply strip_by_map, isspace_upper_char. Qed.


(** ** Value coercion *)

Lemma first_cast_casters v :
  first_cast casters v =
    match Py.int v with
    | Ok n => Some (VInt n)
    | Raise _ =>
        match Py.float_of_str v with
        | Ok f => Some (VFloat f)
        | Raise _ => None
        end
    end.
Proof.
  unfold casters. simpl.
  destruct (Py.int v); simpl; [reflexivity|].
  destruct (Py.float_of_str v); reflexivity.
Qed.

Lemma coerce_value_eq t : _coerce_value t = Ok (coerce_in_order t).
Proof.
  unfold _coerce_value, coerce_in_order, is_keyword.
  rewrite first_cast_casters.
  destruct (Py.int t); [reflexivity|].
  destruct (Py.float_of_str t); [reflexivity|].
  destruct (str_eqb (Py.lower t) "true"), (str_eqb (Py.lower t) "false");
    reflexivity.
Qed.

(** C1. Coercion never raises and goes by the fixed order: the integer
    attempt, then the float attempt, then the keywords [true] and [false]
    in any letter case, else the text with its surrounding quote
    characters stripped; ["42"] is the integer 42, ["3.14"] the float 3.14
    (the binary64 value 7070651414971679 * 2^-51), ["TRUE"] the boolean
    true and ["'abc'"] the string [abc]. *)
Theorem coerce_value_total_in_order :
  (forall t : str, _coerce_value t = Ok (coerce_in_order t))
  /\ _coerce_value "42" = Ok (VInt 42)
  /\ _coerce_value "3.14"
     = Ok (VFloat (S754_finite false 7070651414971679 (-51)))
  /\ _coerce_value "TRUE" = Ok (VBool true)
  /\ _coerce_value "'abc'" = Ok (VStr "abc").
Proof.
  split; [exact coerce_value_eq|].
  repeat split; vm_compute; reflexivity.
Qed.

(** ** The interaction log *)

Lemma last_n_short {A} n (l : list A) : length l <= n -> last_n n l = l.
Proof.
  intros H. unfold last_n. now replace (length l - n) with 0 by lia.
Qed.

Lemma last_n_length {A} n (l : list A) :
  length (last_n n l) = Nat.min n (length l).
Proof. unfold last_n. rewrite length_skipn. lia. Qed.

Lemma last_n_app_r {A} n (x y : list A) :
  n <= length y -> last_n n (x ++ y) = last_n n y.
Proof.
  intros H. unfold last_n. rewrite length_app, skipn_app.
  rewrite skipn_all2 by lia. simpl. f_equal. lia.
Qed.

Lemma last_n_absorb {A} n (l r : list A) :
  last_n n (last_n n l ++ r) = last_n n (l ++ r).
Proof.
  destruct (Nat.le_gt_cases (length l) n) as [H|H].
  - now rewrite (last_n_short _ l H).
  - rewrite <- (firstn_skipn (length l - n) l) at 2.
    rewrite <- app_assoc. symmetry. apply last_n_app_r.
    rewrite length_app. fold (last_n n l). rewrite last_n_length. lia.
Qed.

Lemma last_n_map {A B} (f : A -> B) n (l : list A) :
  last_n n (map f l) = map f (last_n n l).
Proof. unfold last_n. now rewrite length_map, skipn_map. Qed.

Lemma remember_eq role content a :
  _remember role content a
  = (Ok tt, {| csv := csv a;
               memory := last_n 50 (memory a ++ [entry (role, content)]) |}).
Proof.
  unfold _remember, mbind, modify, get, ret, entry. simpl.
  destruct (50 <? _) eqn:E; simpl; [reflexivity|].
  apply Nat.ltb_ge in E. rewrite last_n_short; [reflexivity | exact E].
Qed.

Lemma record_all_eq turns : forall a,
  turns <> [] \/ length (memory a) <= 50 ->
  record_all turns a
  = {| csv := csv a; memory := last_n 50 (memory a ++ map entry turns) |}.
Proof.
  induction turns as [|[role content] rest IH]; intros a H; simpl.
  - destruct H as [H|H]; [congruence|].
    rewrite app_nil_r, (last_n_short _ _ H). now destruct a.
  - rewrite remember_eq. simpl. rewrite IH; simpl.
    + rewrite last_n_absorb, <- app_assoc. reflexivity.
    + right. rewrite last_n_length. lia.
Qed.

(** C8. The log keeps the 50 most recent entries, oldest evicted first:
    after 60 [_remember] calls, from any state of the log, it holds
    exactly 50 entries, the last 50 recorded, in their order; and one call
    on any log appends the new entry at the end and drops entries from the
    front only. *)
Theorem interaction_log_capped
    (a : CSVAgent) (turns : list (str * str))
    (H60 : length turns = 60) :
  memory (record_all turns a) = map entry (last_n 50 turns)
  /\ length (memory (record_all turns a)) = 50
  /\ (forall role content,
        _remember role content a
        = (Ok tt,
           {| csv := csv a;
              memory := last_n 50 (memory a ++ [entry (role, content)]) |})
        /\ exists evicted,
             memory a ++ [entry (role, content)]
             = evicted ++ memory (snd (_remember role content a))
             /\ length evicted = length (memory a) + 1 - 50).
Proof.
  assert (E : memory (record_all turns a) = map entry (last_n 50 turns)).
  { rewrite record_all_eq.
    - simpl. rewrite last_n_app_r, last_n_map; [reflexivity|].
      rewrite length_map. lia.
    - left. intros ->. discriminate. }
  split; [exact E|]. split.
  - rewrite E, length_map, last_n_length. lia.
  - intros role content. split; [apply remember_eq|].
    rewrite remember_eq. simpl.
    exists (firstn (length (memory a ++ [entry (role, content)]) - 50)
              (memory a ++ [entry (role, content)])).
    split.
    + unfold last_n. now rewrite firstn_skipn.
    + rewrite length_firstn, length_app. simpl. lia.
Qed.

(** Sixty turns recorded on the sample agent. *)
Lemma interaction_log_capped_witness :
  length sixty_turns = 60
  /\ memory (record_all sixty_turns sample_agent)
     = map entry (last_n 50 sixty_turns).
Proof.
  split; [reflexivity|].
  exact (proj1 (interaction_log_capped sample_agent sixty_turns eq_refl)).
Defined.

(** ** The store *)

(** C9. Loading is all or nothing: when the parser returns a table, the
    table and the file name replace what the store held and the message
    is returned; when the parser raises, the exception reaches the caller
    and the store is as it was, and so is the agent, log included. *)
Theorem load_atomic :
  forall (kwargs : Type)
         (read_csv : list Byte.byte -> kwargs -> res Pd.DataFrame)
         (file_bytes : list Byte.byte) (filename : str) (kw : kwargs)
         (c : CSVTool) (a : CSVAgent),
    match read_csv file_bytes kw with
    | Ok d =>
        load read_csv file_bytes filename kw c
        = (Ok (loaded_message filename d),
           {| df := Some d; name := filename |})
        /\ csv (snd (load_csv read_csv file_bytes filename kw a))
           = {| df := Some d; name := filename |}
    | Raise e =>
        load read_csv file_bytes filename kw c = (Raise e, c)
        /\ load_csv read_csv file_bytes filename kw a = (Raise e, a)
    end.
Proof.
  intros. unfold load_csv, on_csv, load, mbind, lift, modify, ret.
  destruct (read_csv file_bytes kw) as [d|e]; simpl.
  - split; [reflexivity|]. rewrite remember_eq. reflexivity.
  - split; [reflexivity|]. now destruct a.
Qed.

(** ** The matcher *)

Lemma strip_prefix_Some l : forall s s',
  Re.strip_prefix l s = Some s' <-> s = l ++ s'.
Proof.
  induction l as [|a l IH]; intros s s'; simpl.
  - split; congruence.
  - destruct s as [|b s]; [split; discriminate|].
    destruct (Ascii.eqb_spec a b) as [->|N].
    + rewrite IH. split; congruence.
    + split; [discriminate | congruence].
Qed.

Lemma strip_prefix_app l s : Re.strip_prefix l (l ++ s) = Some s.
Proof. now apply strip_prefix_Some. Qed.

Section MatcherSound.
Variable A : Type.
Variable n : nat.

Lemma star_sound cc (k : str -> option A) x : forall s,
  Re.star cc s k = Some x ->
  exists run s', s = run ++ s'
                 /\ Forall (fun c => Re.mem cc c = true) run
                 /\ k s' = Some x.
Proof.
  induction s as [|c s IH]; simpl; intros H.
  - exists [], []. auto.
  - destruct (Re.mem cc c) eqn:Ec.
    + destruct (Re.star cc s k) eqn:Es.
      * injection H as ->.
        destruct (IH eq_refl) as (run & s' & -> & Hrun & Hk).
        exists (c :: run), s'. auto.
      * exists [], (c :: s). auto.
    + exists [], (c :: s). auto.
Qed.

Lemma den_suffix r : forall s s' caps,
  den n r s s' caps -> exists pre, s = pre ++ s'.
Proof.
  induction r; simpl; intros s0 s' caps H.
  - destruct H as (-> & _). now exists [].
  - destruct H as (-> & _). now exists [].
  - destruct H as (-> & _). now exists s.
  - destruct H as (run & -> & _). now exists run.
  - destruct H as (run & -> & _). now exists run.
  - destruct H as [H|H]; eauto.
  - destruct H as (g & c & -> & _). now exists g.
  - destruct H as (mid & c1 & c2 & H1 & H2 & _).
    apply IHr1 in H1 as (p1 & ->). apply IHr2 in H2 as (p2 & ->).
    exists (p1 ++ p2). now rewrite app_assoc.
Qed.

Lemma exec_sound r : forall s caps (k : str -> list str -> option A) x,
  Re.exec n r s caps k = Some x ->
  exists s' new, den n r s s' new /\ k s' (caps ++ new) = Some x.
Proof.
  induction r; simpl; intros s0 caps k x H.
  - destruct (Nat.eqb_spec (length s0) n); [|discriminate].
    exists s0, []. rewrite app_nil_r. auto.
  - destruct s0 as [|c [|c' t]]; try discriminate.
    + exists [], []. rewrite app_nil_r. auto.
    + destruct (Ascii.eqb_spec c Re.newline) as [->|]; [|discriminate].
      exists [Re.newline], []. rewrite app_nil_r. auto.
  - destruct (Re.strip_prefix s s0) as [s'|] eqn:E; [|discriminate].
    apply strip_prefix_Some in E. exists s', [].
    rewrite app_nil_r. auto.
  - apply star_sound in H as (run & s' & -> & Hrun & Hk).
    exists s', []. rewrite app_nil_r. split; [|exact Hk].
    exists run. auto.
  - destruct s0 as [|c t]; [discriminate|].
    destruct (Re.mem cc c) eqn:Ec; [|discriminate].
    apply star_sound in H as (run & s' & -> & Hrun & Hk).
    exists s', []. rewrite app_nil_r. split; [|exact Hk].
    exists (c :: run). repeat split; auto. discriminate.
  - destruct (Re.exec n r1 s0 caps k) eqn:E1.
    + injection H as ->. apply IHr1 in E1 as (s' & new & Hd & Hk).
      exists s', new. auto.
    + apply IHr2 in H as (s' & new & Hd & Hk).
      exists s', new. auto.
  - apply IHr in H as (s' & new & Hd & Hk).
    destruct (den_suffix _ _ _ _ Hd) as (pre & ->).
    rewrite length_app, Nat.add_sub, firstn_app,
      Nat.sub_diag, firstn_all in Hk.
    simpl in Hk. rewrite app_nil_r, <- app_assoc in Hk.
    exists s', (new ++ [pre]). split; [|exact Hk].
    exists pre, new. auto.
  - apply IHr1 in H as (mid & c1 & H1 & H).
    apply IHr2 in H as (s' & c2 & H2 & Hk).
    exists s', (c1 ++ c2). rewrite app_assoc. split; [|exact Hk].
    exists mid, c1, c2. auto.
Qed.
End MatcherSound.

Lemma match_sound pat s m :
  Re.match_ pat s = Some m ->
  exists rest, den (length s) pat s rest (Re.groups m)
               /\ Re.end_ m = length s - length rest.
Proof.
  unfold Re.match_. intros H.
  apply exec_sound in H as (rest & new & Hd & [= <-]).
  exists rest. simpl. auto.
Qed.

(** ** The shapes of the patterns *)

Ltac break_den :=
  repeat match goal with
         | H : exists _, _ |- _ => destruct H
         | H : _ /\ _ |- _ => destruct H
         end.

Lemma trimmed_prompt prompt : trimmed (Py.lower (Py.strip prompt)).
Proof.
  unfold trimmed. intros pre c H. rewrite <- strip_lower in H.
  unfold Py.strip in H. eapply strip_by_last. exact H.
Qed.

Lemma trimmed_rest p pre rest :
  trimmed p -> p = pre ++ rest -> rest = [] \/ rest = [Re.newline] ->
  rest = [].
Proof.
  intros Ht -> [->| ->]; [reflexivity|].
  specialize (Ht pre Re.newline eq_refl). discriminate.
Qed.

Lemma column_pattern_sound words p m :
  Re.match_ (column_pattern words) p = Some m ->
  exists g rest,
    p = words ++ g ++ rest
    /\ Re.groups m = [g]
    /\ g <> []
    /\ Forall (fun c => Re.mem colchars c = true) g
    /\ (rest = [] \/ rest = [Re.newline])
    /\ Re.end_ m = length p - length rest.
Proof.
  intros H. apply match_sound in H as (rest & Hd & He).
  unfold column_pattern in Hd. cbn [den] in Hd. break_den. subst.
  match goal with
  | E : ?g ++ ?r = ?run ++ ?r |- _ => apply app_inv_tail in E; subst
  end.
  match goal with H : Re.groups m = _ |- _ => simpl in H end.
  eexists _, _. repeat split; eauto.
Qed.

Lemma count_pattern_sound p m :
  Re.match_ (Re.Bol ;; Re.Lit "count rows" ;; Re.Eol)%re p = Some m ->
  exists rest,
    p = ("count rows" : str) ++ rest
    /\ Re.groups m = []
    /\ (rest = [] \/ rest = [Re.newline])
    /\ Re.end_ m = length p - length rest.
Proof.
  intros H. apply match_sound in H as (rest & Hd & He).
  cbn [den] in Hd. break_den. subst.
  match goal with H : Re.groups m = _ |- _ => simpl in H end.
  eexists. repeat split; eauto.
Qed.

Lemma operators_den n s s' c :
  den n operators s s' c ->
  exists op, In op op_texts /\ s = op ++ s' /\ c = [].
Proof.
  unfold operators. cbn [den]. intros H.
  repeat match goal with
         | H : _ \/ _ |- _ => destruct H
         end;
    match goal with
    | H : _ = ?l ++ _ /\ _ |- _ =>
        destruct H; exists l; repeat split; auto; cbn; tauto
    end.
Qed.

Lemma mem_digits c : Re.mem digits c = true -> Py.isdigit c = true.
Proof. cbn. now rewrite orb_false_r. Qed.

Lemma filter_pattern_sound p m :
  Re.match_ FILTER_PATTERN p = Some m ->
  exists col w1 op w2 val w3 w4 topn rest,
    p = ("filter " : str) ++ col ++ w1 ++ op ++ w2 ++ val ++ w3
        ++ ("and show top" : str) ++ w4 ++ topn ++ rest
    /\ Re.groups m = [col; op; val; topn]
    /\ (col <> [] /\ Forall (fun c => Re.mem colchars c = true) col)
    /\ In op op_texts
    /\ (val <> [] /\ Forall (fun c => Re.mem nonspace c = true) val)
    /\ (topn <> [] /\ Forall (fun c => Py.isdigit c = true) topn)
    /\ (rest = [] \/ rest = [Re.newline])
    /\ Re.end_ m = length p - length rest.
Proof.
  intros H. apply match_sound in H as (rest & Hd & He).
  unfold FILTER_PATTERN in Hd. cbn [den] in Hd. break_den.
  match goal with
  | H : den _ operators _ _ _ |- _ =>
      apply operators_den in H as (op & Hop & ? & ?)
  end.
  subst.
  repeat match goal with
         | E : ?g ++ ?r = ?run ++ ?r |- _ => apply app_inv_tail in E; subst
         end.
  match goal with H : Re.groups m = _ |- _ => simpl in H end.
  match goal with
  | H : Forall (fun c => Re.mem digits c = true) _ |- _ =>
      apply (Forall_impl _ mem_digits) in H
  end.
  do 9 eexists. split; [reflexivity|]. repeat split; eauto.
Qed.

(** ** First match wins *)

Lemma SIMPLE_PATTERNS_known :
  Forall (fun pk => known_kind (snd pk) = true) SIMPLE_PATTERNS.
Proof. repeat constructor. Qed.

Lemma bind_Ok_inv {A B} (m : res A) (f : A -> res B) b :
  bind m f = Ok b -> exists a, m = Ok a /\ f a = Ok b.
Proof. destruct m; simpl; [eauto | discriminate]. Qed.

(** A turn of the loop on a kind of the dictionary always returns. *)
Lemma column_action_returns d kind col :
  known_kind kind = true -> str_eqb kind "count_rows" = false ->
  column_action d kind col <> Ok None.
Proof.
  unfold known_kind, column_action. simpl. intros Hk Hc H.
  rewrite Hc in Hk.
  destruct (negb (Pd.has_column d col)); [discriminate|].
  repeat match type of H with
         | (if ?b then _ else _) = _ => destruct b
         | bind _ _ = Ok _ =>
             apply bind_Ok_inv in H as (? & _ & H)
         | Ok _ = Ok _ => discriminate H
         end.
  discriminate Hk.
Qed.

Lemma matched_action_returns d kind m :
  known_kind kind = true -> matched_action d kind m <> Ok None.
Proof.
  unfold matched_action. intros Hk H.
  destruct (str_eqb kind "count_rows") eqn:Hc; [discriminate|].
  apply bind_Ok_inv in H as (g & _ & H).
  now apply column_action_returns in H.
Qed.

Lemma simple_loop_first_match d p pats :
  Forall (fun pk => known_kind (snd pk) = true) pats ->
  simple_loop d p pats
  = match first_match pats p with
    | Some (kind, m) => matched_action d kind m
    | None => Ok None
    end.
Proof.
  induction 1 as [|[pat kind] pats Hk _ IH]; simpl; [reflexivity|].
  destruct (Re.match_ pat p) as [m|]; [|exact IH].
  pose proof (matched_action_returns d kind m Hk) as Hr.
  destruct (matched_action d kind m) as [[x|]|e]; simpl;
    [reflexivity | congruence | reflexivity].
Qed.

Lemma first_match_In pats p kind m :
  first_match pats p = Some (kind, m) ->
  exists pat, In (pat, kind) pats /\ Re.match_ pat p = Some m.
Proof.
  induction pats as [|[pat k] pats IH]; simpl; [discriminate|].
  destruct (Re.match_ pat p) as [m'|] eqn:E.
  - intros [= <- <-]. eauto.
  - intros H. destruct (IH H) as (pat' & ? & ?). eauto.
Qed.

Lemma SIMPLE_PATTERNS_not_filter pat kind :
  In (pat, kind) SIMPLE_PATTERNS -> str_eqb kind "filter" = false.
Proof.
  unfold SIMPLE_PATTERNS. simpl. intros H.
  repeat destruct H as [[= <- <-]|H]; try reflexivity. destruct H.
Qed.

(** [simple] on a loaded store does what the first shape that matches
    asks for. *)
Lemma simple_first_match c d prompt :
  df c = Some d ->
  simple c prompt
  = match first_match shapes_in_order (Py.lower (Py.strip prompt)) with
    | Some (kind, m) => perform d kind m
    | None => Ok (RStr UNRECOGNIZED)
    end.
Proof.
  intros Hd. unfold simple. rewrite Hd. unfold shapes_in_order.
  cbn [first_match]. set (p := Py.lower (Py.strip prompt)).
  destruct (Re.match_ FILTER_PATTERN p) as [m|]; [reflexivity|].
  rewrite (simple_loop_first_match _ _ _ SIMPLE_PATTERNS_known).
  destruct (first_match SIMPLE_PATTERNS p) as [[kind m]|] eqn:E;
    [|reflexivity].
  apply first_match_In in E as (pat & HIn & _).
  unfold perform. now rewrite (SIMPLE_PATTERNS_not_filter _ _ HIn).
Qed.

Lemma simple_lower c prompt :
  simple c (Py.lower prompt) = simple c prompt.
Proof.
  unfold simple. now rewrite strip_lower, lower_idem.
Qed.

(** For ASCII text, where [Py.upper] is [str.upper]. *)
Lemma simple_upper c prompt :
  Py.isascii prompt = true ->
  simple c (Py.upper prompt) = simple c prompt.
Proof.
  intros _. unfold simple. now rewrite strip_upper, lower_upper.
Qed.

Lemma whole_input p pat kind m :
  trimmed p -> In (pat, kind) shapes_in_order ->
  Re.match_ pat p = Some m -> Re.end_ m = length p.
Proof.
  intros Ht HIn Hm.
  assert (W : forall pre rest,
             p = pre ++ rest -> rest = [] \/ rest = [Re.newline] ->
             Re.end_ m = length p - length rest -> Re.end_ m = length p).
  { intros pre rest E Hr He.
    rewrite (trimmed_rest _ _ _ Ht E Hr) in He. simpl in He. lia. }
  unfold shapes_in_order, SIMPLE_PATTERNS in HIn. simpl in HIn.
  repeat destruct HIn as [[= <- <-]|HIn]; try destruct HIn.
  - apply filter_pattern_sound in Hm.
    destruct Hm as (c & w1 & o & w2 & v & w3 & w4 & t & rest & E & _ & _
                    & _ & _ & _ & Hr & He).
    eapply W; [|exact Hr|exact He].
    rewrite E. repeat rewrite app_assoc. reflexivity.
  - apply column_pattern_sound in Hm as (g & rest & E & _ & _ & _ & Hr & He).
    eapply W; [|exact Hr|exact He].
    rewrite E. repeat rewrite app_assoc. reflexivity.
  - apply column_pattern_sound in Hm as (g & rest & E & _ & _ & _ & Hr & He).
    eapply W; [|exact Hr|exact He].
    rewrite E. repeat rewrite app_assoc. reflexivity.
  - apply column_pattern_sound in Hm as (g & rest & E & _ & _ & _ & Hr & He).
    eapply W; [|exact Hr|exact He].
    rewrite E. repeat rewrite app_assoc. reflexivity.
  - apply column_pattern_sound in Hm as (g & rest & E & _ & _ & _ & Hr & He).
    eapply W; [|exact Hr|exact He].
    rewrite E. repeat rewrite app_assoc. reflexivity.
  - apply column_pattern_sound in Hm as (g & rest & E & _ & _ & _ & Hr & He).
    eapply W; [|exact Hr|exact He].
    rewrite E. repeat rewrite app_assoc. reflexivity.
  - apply count_pattern_sound in Hm as (rest & E & _ & Hr & He).
    eapply W; [|exact Hr|exact He]. exact E.
  - apply column_pattern_sound in Hm as (g & rest & E & _ & _ & _ & Hr & He).
    eapply W; [|exact Hr|exact He].
    rewrite E. repeat rewrite app_assoc. reflexivity.
Qed.

(** On a pattern of [SIMPLE_PATTERNS] for a column, the loop of [simple]
    answers the question of the pattern. *)
Ltac answer_column d E :=
  apply column_pattern_sound in E as (g & rest & _ & Hg & _);
  rewrite Hg; unfold perform, matched_action, Re.group; rewrite Hg;
  cbn [nth_error Nat.sub];
  repeat match goal with
         | |- context [str_eqb (str_of_string ?a) (str_of_string ?b)] =>
             let v := eval vm_compute in
                        (str_eqb (str_of_string a) (str_of_string b)) in
             change (str_eqb (str_of_string a) (str_of_string b)) with v
         end;
  cbn iota; unfold column_action, answer, on_column;
  repeat match goal with
         | |- context [str_eqb (str_of_string ?a) (str_of_string ?b)] =>
             let v := eval vm_compute in
                        (str_eqb (str_of_string a) (str_of_string b)) in
             change (str_eqb (str_of_string a) (str_of_string b)) with v
         end;
  cbn iota; cbn [bind];
  destruct (Pd.has_column d (Py.strip g)); cbn [negb bind]; [|reflexivity];
  destruct (Pd.getitem d (Py.strip g)) as [s|e]; cbn [bind];
  [|reflexivity];
  try destruct (Pd.astype_float s); try destruct (Pd.max s);
  try destruct (Pd.min s); reflexivity.

(** [simple] answers the question that the text asks. *)
Lemma simple_classify c d prompt :
  df c = Some d ->
  simple c prompt
  = match classify (Py.lower (Py.strip prompt)) with
    | Some q => answer d q
    | None => Ok (RStr UNRECOGNIZED)
    end.
Proof.
  intros Hd. rewrite (simple_first_match c d prompt Hd).
  set (p := Py.lower (Py.strip prompt)).
  unfold shapes_in_order, SIMPLE_PATTERNS, classify, filter_form,
    column_form, count_form.
  cbn [first_match first_some].
  destruct (Re.match_ FILTER_PATTERN p) as [m|] eqn:E0.
  { apply filter_pattern_sound in E0
      as (g1 & w1 & g2 & w2 & g3 & w3 & w4 & g4 & rest & _ & Hg & _).
    rewrite Hg. unfold perform. rewrite str_eqb_refl, Hg. reflexivity. }
  destruct (Re.match_ (column_pattern "average of ") p) as [m|] eqn:E1;
    [answer_column d E1|].
  destruct (Re.match_ (column_pattern "mean of ") p) as [m|] eqn:E2;
    [answer_column d E2|].
  destruct (Re.match_ (column_pattern "sum of ") p) as [m|] eqn:E3;
    [answer_column d E3|].
  destruct (Re.match_ (column_pattern "max of ") p) as [m|] eqn:E4;
    [answer_column d E4|].
  destruct (Re.match_ (column_pattern "min of ") p) as [m|] eqn:E5;
    [answer_column d E5|].
  destruct (Re.match_ (Re.Bol ;; Re.Lit "count rows" ;; Re.Eol)%re p)
    as [m|] eqn:E6; [reflexivity|].
  destruct (Re.match_ (column_pattern "unique values of ") p)
    as [m|] eqn:E7; [answer_column d E7|].
  reflexivity.
Qed.

(** C2. Classification goes through the forms in one fixed order, the
    filter form first, then average and mean, sum, max, min, count rows
    and unique values; the first form that the text has decides the
    question, and [simple] answers that question: the mean for [average
    of] and [mean of], the sum for [sum of], and so on.  Letter case does
    not matter: a text, the text in small letters and, for ASCII text,
    the text in capitals get the same answer.  A form that matches
    matches the trimmed input up to its end, from its start. *)
Theorem classification_first_match_wins :
  forall (d : Pd.DataFrame) (nm prompt : str),
    let c := {| df := Some d; name := nm |} in
    let p := Py.lower (Py.strip prompt) in
    simple c prompt
    = match classify p with
      | Some q => answer d q
      | None => Ok (RStr UNRECOGNIZED)
      end
    /\ simple c prompt
       = match first_match shapes_in_order p with
         | Some (kind, m) => perform d kind m
         | None => Ok (RStr UNRECOGNIZED)
         end
    /\ map snd shapes_in_order
       = [ "filter" : str; "avg" : str; "avg" : str; "sum" : str;
           "max" : str; "min" : str; "count_rows" : str; "unique" : str ]
    /\ simple c (Py.lower prompt) = simple c prompt
    /\ (Py.isascii prompt = true ->
        simple c (Py.upper prompt) = simple c prompt)
    /\ (forall prompt',
          Py.lower (Py.strip prompt') = p ->
          simple c prompt' = simple c prompt)
    /\ Forall (fun pk =>
                 match Re.match_ (fst pk) p with
                 | Some m => Re.end_ m = length p
                 | None => True
                 end) shapes_in_order.
Proof.
  intros d nm prompt c p.
  split; [|split; [|split; [|split; [|split; [|split]]]]].
  - now apply simple_classify.
  - now apply simple_first_match.
  - reflexivity.
  - apply simple_lower.
  - apply simple_upper.
  - intros prompt' E. unfold simple, c. cbn [df]. fold p. now rewrite E.
  - apply Forall_forall. intros [pat kind] HIn. simpl.
    destruct (Re.match_ pat p) as [m|] eqn:E; [|exact I].
    exact (whole_input p pat kind m (trimmed_prompt prompt) HIn E).
Qed.

(** ** Unrecognized text *)

Lemma first_match_None pats p :
  Forall (fun pk => Re.match_ (fst pk) p = None) pats ->
  first_match pats p = None.
Proof.
  induction 1 as [|[pat kind] pats H _ IH]; simpl; [reflexivity|].
  simpl in H. now rewrite H.
Qed.

(** C7, as stated, fails: with no dataset loaded, a text that matches no
    shape and has no [sql:] prefix raises [ValueError("No CSV loaded.")]. *)
Lemma unrecognized_text_without_dataset :
  ~ (forall (sqldf : str -> Pd.DataFrame -> res Pd.DataFrame)
    (cell_type : CSVTool -> str -> str)
            (a : CSVAgent) (text : str),
        Forall (fun pk => Re.match_ (fst pk) (Py.lower (Py.strip text))
                          = None) shapes_in_order ->
        Py.startswith "sql:" (Py.lower (Py.strip text)) = false ->
        fst (ask sqldf cell_type text a) = Ok (RStr UNRECOGNIZED)).
Proof.
  intros H.
  specialize (H no_sql sample_cell_type CSVAgent_init ("hello" : str)).
  assert (E : fst (ask no_sql sample_cell_type ("hello" : str) CSVAgent_init)
              = Raise (ValueError "No CSV loaded."))
    by (vm_compute; reflexivity).
  rewrite E in H.
  assert (N : Raise (ValueError "No CSV loaded.") = Ok (RStr UNRECOGNIZED)).
  { apply H; [repeat constructor | reflexivity]. }
  discriminate N.
Qed.

(** C7, amended. When a dataset is loaded, a text that matches neither
    the filter shape nor any shape of [SIMPLE_PATTERNS] and has no [sql:]
    prefix gets the fixed instructional string, as an ordinary result of
    [simple] and of [ask]; [ask] logs the turn and the type of the
    answer. *)
Theorem unrecognized_text_answered
    (sqldf : str -> Pd.DataFrame -> res Pd.DataFrame)
    (cell_type : CSVTool -> str -> str)
    (a : CSVAgent) (d : Pd.DataFrame) (text : str)
    (Hd : loaded a d)
    (Hno : Forall (fun pk => Re.match_ (fst pk) (Py.lower (Py.strip text))
                             = None) shapes_in_order)
    (Hsql : Py.startswith "sql:" (Py.lower (Py.strip text)) = false) :
  simple (csv a) text = Ok (RStr UNRECOGNIZED)
  /\ ask sqldf cell_type text a
     = (Ok (RStr UNRECOGNIZED),
        {| csv := csv a;
           memory :=
             last_n 50
               (last_n 50 (memory a ++ [entry ("user" : str, text)])
                ++ [entry ("agent" : str, "str" : str)]) |}).
Proof.
  assert (E : simple (csv a) text = Ok (RStr UNRECOGNIZED)).
  { rewrite (simple_first_match _ d _ Hd).
    now rewrite (first_match_None _ _ Hno). }
  split; [exact E|].
  unfold ask, mbind. rewrite remember_eq. unfold get. cbn [csv].
  rewrite Hsql. unfold lift. rewrite E. rewrite remember_eq.
  reflexivity.
Qed.

(** The text [hello] on the sample agent. *)
Lemma unrecognized_text_answered_witness :
  fst (ask no_sql sample_cell_type ("hello" : str) sample_agent)
  = Ok (RStr UNRECOGNIZED).
Proof.
  assert (Hno : Forall (fun pk =>
                  Re.match_ (fst pk) (Py.lower (Py.strip ("hello" : str)))
                  = None) shapes_in_order)
    by (repeat constructor).
  exact (f_equal fst
           (proj2 (unrecognized_text_answered no_sql sample_cell_type
                     sample_agent sample
                     ("hello" : str) eq_refl Hno eq_refl))).
Defined.

(** ** Queries that name a column *)

Lemma match_lit_None w r p :
  Re.strip_prefix w p = None ->
  Re.match_ (Re.Bol ;; Re.Lit w ;; r)%re p = None.
Proof.
  intros H. unfold Re.match_. simpl. now rewrite Nat.eqb_refl, H.
Qed.

Ltac skip_other_shapes :=
  repeat match goal with
         | |- context [Re.match_ (Re.Bol ;; Re.Lit ?w ;; ?r)%re ?p] =>
             rewrite (match_lit_None w r p) by reflexivity
         end.

Lemma pair_eq_inv {A B} (a c : A) (b d : B) :
  (a, b) = (c, d) -> c = a /\ d = b.
Proof. intros [= -> ->]. auto. Qed.

Lemma column_query_first_match p kind col :
  column_query p kind col ->
  exists m, first_match shapes_in_order p = Some (kind, m)
            /\ Re.groups m = [col].
Proof.
  intros (pat & m & HIn & Hk & Hm & Hg). exists m. split; [|exact Hg].
  unfold SIMPLE_PATTERNS in HIn. cbn [In] in HIn.
  repeat destruct HIn as [HIn|HIn]; try (exfalso; exact HIn);
    apply pair_eq_inv in HIn as [-> ->];
    try discriminate Hk;
    pose proof Hm as Hs;
    apply column_pattern_sound in Hs as (g & rest & E & _);
    subst p;
    unfold shapes_in_order, SIMPLE_PATTERNS, FILTER_PATTERN, column_pattern
      in *;
    cbn [first_match]; skip_other_shapes; now rewrite Hm.
Qed.

Lemma filter_query_first_match p col op val topn :
  filter_query p col op val topn ->
  exists m, first_match shapes_in_order p = Some ("filter" : str, m)
            /\ Re.groups m = [col; op; val; topn].
Proof.
  intros (m & Hm & Hg). exists m. split; [|exact Hg].
  unfold shapes_in_order. cbn [first_match]. now rewrite Hm.
Qed.

Lemma simple_column_query c d prompt kind col :
  df c = Some d ->
  column_query (Py.lower (Py.strip prompt)) kind col ->
  simple c prompt
  = (r <- column_action d kind (Py.strip col) ;;
     match r with
     | Some x => Ok x
     | None => Ok (RStr UNRECOGNIZED)
     end).
Proof.
  intros Hd Hq. rewrite (simple_first_match _ d _ Hd).
  pose proof Hq as (pat & _ & HIn & Hk & _).
  apply column_query_first_match in Hq as (m & -> & Hg).
  unfold perform, matched_action, Re.group.
  rewrite (SIMPLE_PATTERNS_not_filter _ _ HIn), Hk, Hg. reflexivity.
Qed.

Lemma simple_filter_query c d prompt col op val topn :
  df c = Some d ->
  filter_query (Py.lower (Py.strip prompt)) col op val topn ->
  simple c prompt = simple_filter d [col; op; val; topn].
Proof.
  intros Hd Hq. rewrite (simple_first_match _ d _ Hd).
  apply filter_query_first_match in Hq as (m & -> & Hg).
  unfold perform. now rewrite Hg.
Qed.

(** A prompt of one of the shapes has no [sql:] prefix, so that [ask]
    hands it to [simple] and returns what [simple] returns or raises. *)
Lemma shape_not_sql p :
  (exists kind m, first_match shapes_in_order p = Some (kind, m)) ->
  Py.startswith "sql:" p = false.
Proof.
  intros (kind & m & H).
  apply first_match_In in H as (pat & HIn & Hm).
  unfold shapes_in_order, SIMPLE_PATTERNS in HIn. simpl in HIn.
  repeat destruct HIn as [[= <- <-]|HIn]; try destruct HIn.
  - apply filter_pattern_sound in Hm. break_den. subst. reflexivity.
  - apply column_pattern_sound in Hm. break_den. subst. reflexivity.
  - apply column_pattern_sound in Hm. break_den. subst. reflexivity.
  - apply column_pattern_sound in Hm. break_den. subst. reflexivity.
  - apply column_pattern_sound in Hm. break_den. subst. reflexivity.
  - apply column_pattern_sound in Hm. break_den. subst. reflexivity.
  - apply count_pattern_sound in Hm. break_den. subst. reflexivity.
  - apply column_pattern_sound in Hm. break_den. subst. reflexivity.
Qed.

Lemma ask_simple sqldf cell_type text a :
  Py.startswith "sql:" (Py.lower (Py.strip text)) = false ->
  fst (ask sqldf cell_type text a) = simple (csv a) text.
Proof.
  intros H. unfold ask, mbind. rewrite remember_eq. unfold get.
  cbn [csv]. rewrite H. unfold lift.
  destruct (simple (csv a) text) as [r|e]; [|reflexivity].
  now rewrite remember_eq.
Qed.

Lemma names_column_first_match p col :
  names_column p col ->
  exists kind m, first_match shapes_in_order p = Some (kind, m).
Proof.
  intros [(kind & H)|(op & val & topn & H)].
  - apply column_query_first_match in H as (m & H & _). eauto.
  - apply filter_query_first_match in H as (m & H & _). eauto.
Qed.

Lemma names_column_missing c d prompt col :
  df c = Some d ->
  names_column (Py.lower (Py.strip prompt)) col ->
  Pd.has_column d (Py.strip col) = false ->
  simple c prompt = Ok (RStr (column_not_found (Py.strip col))).
Proof.
  intros Hd [(kind & Hq)|(op & val & topn & Hq)] Hc.
  - rewrite (simple_column_query _ d _ _ _ Hd Hq).
    unfold column_action. now rewrite Hc.
  - rewrite (simple_filter_query _ d _ _ _ _ _ Hd Hq).
    unfold simple_filter. now rewrite Hc.
Qed.

(** C5. An aggregate, unique-values or filter query whose column is not
    in the loaded dataset returns the message [Column '<name>' not
    found.] as an ordinary result, from [simple] and from [ask]; nothing
    is raised. *)
Theorem missing_column_message
    (sqldf : str -> Pd.DataFrame -> res Pd.DataFrame)
    (cell_type : CSVTool -> str -> str)
    (a : CSVAgent) (d : Pd.DataFrame) (prompt col : str)
    (Hd : loaded a d)
    (Hq : names_column (Py.lower (Py.strip prompt)) col)
    (Hmissing : Pd.has_column d (Py.strip col) = false) :
  simple (csv a) prompt
  = Ok (RStr (("Column '" : str) ++ Py.strip col ++ ("' not found." : str)))
  /\ fst (ask sqldf cell_type prompt a)
     = Ok (RStr (("Column '" : str) ++ Py.strip col
                 ++ ("' not found." : str))).
Proof.
  assert (E := names_column_missing _ d _ _ Hd Hq Hmissing).
  split; [exact E|].
  rewrite ask_simple; [exact E|].
  apply shape_not_sql. now apply names_column_first_match with col.
Qed.

(** A sum and a filter over a column [revenue] that the sample has not. *)
Lemma missing_column_message_witness :
  simple sample_store ("Sum of  Revenue" : str)
  = Ok (RStr ("Column 'revenue' not found." : str))
  /\ simple sample_store ("filter Revenue >= 3 and show top 2" : str)
     = Ok (RStr ("Column 'revenue' not found." : str)).
Proof.
  split.
  - refine (proj1 (missing_column_message no_sql sample_cell_type
                     sample_agent sample
                     ("Sum of  Revenue" : str) (" revenue" : str)
                     eq_refl _ eq_refl)).
    left. exists ("sum" : str), (column_pattern "sum of ").
    eexists. split; [right; right; left; reflexivity|].
    split; [reflexivity|]. split; [lazy; reflexivity | reflexivity].
  - refine (proj1 (missing_column_message no_sql sample_cell_type
                     sample_agent sample
                     ("filter Revenue >= 3 and show top 2" : str)
                     ("revenue " : str) eq_refl _ eq_refl)).
    right. exists (">=" : str), ("3" : str), ("2" : str).
    eexists. split; [lazy; reflexivity | reflexivity].
Defined.

(** ** Mean and sum *)

Lemma getitem_has_column d col s :
  Pd.getitem d col = Ok s -> Pd.has_column d col = true.
Proof.
  unfold Pd.getitem, Pd.has_column.
  destruct (find _ (Pd.columns d)) as [c|] eqn:E; [|discriminate].
  intros _. apply find_some in E as [HIn Hc].
  apply existsb_exists. eauto.
Qed.

Lemma astype_float_raises s :
  Exists (fun a => exists e, Pd.float_of_cell a = Raise e) s ->
  exists msg, Pd.astype_float s = Raise (ValueError msg).
Proof.
  induction s as [|a s IH]; intros H; [inversion H|].
  apply Exists_cons in H as [[e He]|H']; simpl.
  - destruct a as [z|f|b|t]; try discriminate He. simpl in *.
    destruct (Py.float_of_str t); [discriminate He|]. simpl. eauto.
  - destruct (IH H') as [msg Hmsg]. rewrite Hmsg.
    destruct a as [z|f|b|t]; simpl; eauto.
    destruct (Py.float_of_str t); simpl; eauto.
Qed.

Lemma astype_float_length s : forall fs,
  Pd.astype_float s = Ok fs -> length fs = length s.
Proof.
  induction s as [|x s IH]; simpl; intros fs H.
  - now injection H as <-.
  - apply bind_Ok_inv in H as (f & _ & H).
    apply bind_Ok_inv in H as (fs' & H' & H).
    injection H as <-. simpl. f_equal. now apply IH.
Qed.

Lemma astype_float_casts s :
  Forall (fun a => exists f, Pd.float_of_cell a = Ok f) s ->
  exists fs, Pd.astype_float s = Ok fs /\ length fs = length s.
Proof.
  induction 1 as [|a s [f Hf] _ (fs & IH & Hl)]; simpl.
  - exists []. auto.
  - rewrite Hf, IH. simpl. exists (f :: fs). simpl. auto.
Qed.

Lemma simple_numeric_aggregate c d prompt kind col s :
  df c = Some d ->
  column_query (Py.lower (Py.strip prompt)) kind col ->
  numeric_kind kind ->
  Pd.getitem d (Py.strip col) = Ok s ->
  simple c prompt
  = (fs <- Pd.astype_float s ;; Ok (RFloat (reduce kind fs))).
Proof.
  intros Hd Hq Hk Hs. rewrite (simple_column_query _ d _ _ _ Hd Hq).
  unfold column_action. rewrite (getitem_has_column _ _ _ Hs), Hs.
  unfold reduce.
  destruct Hk as [-> | ->]; simpl; destruct (Pd.astype_float s); reflexivity.
Qed.

Lemma sum_of_city_query :
  column_query (Py.lower (Py.strip ("Sum of city" : str)))
    ("sum" : str) ("city" : str).
Proof.
  exists (column_pattern "sum of "). eexists.
  split; [right; right; left; reflexivity|].
  split; [reflexivity|]. split; [lazy; reflexivity | reflexivity].
Qed.

(** C4, as stated, fails on the class of the exception: a mean or sum
    over a column with text that is no number raises [ValueError], not
    [TypeError]. *)
Lemma aggregate_cast_error_class :
  ~ (forall (c : CSVTool) (d : Pd.DataFrame) (prompt kind col : str)
            (s : Pd.Series),
        df c = Some d ->
        column_query (Py.lower (Py.strip prompt)) kind col ->
        numeric_kind kind ->
        Pd.getitem d (Py.strip col) = Ok s ->
        Exists (fun a => exists e, Pd.float_of_cell a = Raise e) s ->
        exists msg, simple c prompt = Raise (TypeError msg)).
Proof.
  intros H.
  destruct (H sample_store sample ("Sum of city" : str) ("sum" : str)
              ("city" : str) _ eq_refl sum_of_city_query
              (or_intror eq_refl) eq_refl) as [msg Hmsg].
  - apply Exists_cons_hd. eexists. reflexivity.
  - vm_compute in Hmsg. discriminate Hmsg.
Qed.

(** C4, amended. A mean or sum over an existing column casts every cell
    to a float before it reduces; a cell that cannot be cast makes the
    cast raise (a [ValueError]), and the exception leaves [simple] and
    [ask] as it is: no cell is skipped for being no number.  When every
    cell can be cast, the answer is the float reduced from the cast
    column. *)
Theorem numeric_aggregate_cast
    (sqldf : str -> Pd.DataFrame -> res Pd.DataFrame)
    (cell_type : CSVTool -> str -> str)
    (a : CSVAgent) (d : Pd.DataFrame) (prompt kind col : str)
    (s : Pd.Series)
    (Hd : loaded a d)
    (Hq : column_query (Py.lower (Py.strip prompt)) kind col)
    (Hk : numeric_kind kind)
    (Hs : Pd.getitem d (Py.strip col) = Ok s) :
  match Pd.astype_float s with
  | Ok fs =>
      simple (csv a) prompt = Ok (RFloat (reduce kind fs))
      /\ length fs = length s
  | Raise e =>
      simple (csv a) prompt = Raise e
      /\ fst (ask sqldf cell_type prompt a) = Raise e
  end
  /\ (Exists (fun x => exists e, Pd.float_of_cell x = Raise e) s ->
      exists msg, Pd.astype_float s = Raise (ValueError msg))
  /\ (Forall (fun x => exists f, Pd.float_of_cell x = Ok f) s ->
      exists fs, Pd.astype_float s = Ok fs).
Proof.
  pose proof (simple_numeric_aggregate _ d _ _ _ _ Hd Hq Hk Hs) as E.
  split; [|split].
  - destruct (Pd.astype_float s) as [fs|e] eqn:Ea; simpl in E.
    + split; [exact E|]. now apply astype_float_length.
    + split; [exact E|]. rewrite ask_simple; [exact E|].
      apply shape_not_sql.
      apply names_column_first_match with col. left. eauto.
  - apply astype_float_raises.
  - intros H. destruct (astype_float_casts s H) as (fs & Hfs & _). eauto.
Qed.

(** The sum of the text column [city] of the sample. *)
Lemma numeric_aggregate_cast_witness :
  simple (csv sample_agent) ("Sum of city" : str)
  = Raise (ValueError ("could not convert string to float: 'paris'" : str))
  /\ fst (ask no_sql sample_cell_type ("Sum of city" : str) sample_agent)
     = Raise (ValueError
                ("could not convert string to float: 'paris'" : str)).
Proof.
  exact (proj1 (numeric_aggregate_cast no_sql sample_cell_type
                  sample_agent sample
                  ("Sum of city" : str) ("sum" : str) ("city" : str)
                  _ eq_refl sum_of_city_query (or_intror eq_refl) eq_refl)).
Defined.

(** ** Unique values *)

Lemma dropna_In s v : In v (Pd.dropna s) <-> In v s /\ Pd.isna v = false.
Proof.
  unfold Pd.dropna. rewrite filter_In.
  destruct (Pd.isna v); simpl; intuition congruence.
Qed.

Lemma unique_from_In seen s v :
  In v (Pd.unique_from seen s) -> In v s.
Proof.
  revert seen. induction s as [|x s IH]; simpl; intros seen H; [exact H|].
  destruct (existsb (Pd.same x) seen).
  - right. eauto.
  - destruct H as [->|H]; [now left | right; eauto].
Qed.

(** Scanning one more cell appends it when it is new. *)
Lemma unique_from_snoc s : forall seen x,
  Pd.unique_from seen (s ++ [x])
  = Pd.unique_from seen s
    ++ (if existsb (Pd.same x) (seen ++ Pd.unique_from seen s)
        then [] else [x]).
Proof.
  induction s as [|a s IH]; intros seen x; simpl.
  - rewrite app_nil_r. destruct (existsb (Pd.same x) seen); reflexivity.
  - destruct (existsb (Pd.same a) seen); [apply IH|].
    rewrite IH, <- app_assoc. reflexivity.
Qed.

Lemma unique_snoc s x :
  Pd.unique (s ++ [x])
  = Pd.unique s
    ++ (if existsb (Pd.same x) (Pd.unique s) then [] else [x]).
Proof. apply unique_from_snoc. Qed.

Lemma unique_from_distinct s : forall seen,
  Forall (fun v => existsb (Pd.same v) seen = false)
    (Pd.unique_from seen s)
  /\ distinct (Pd.unique_from seen s).
Proof.
  unfold distinct.
  induction s as [|a s IH]; intros seen; simpl.
  - split; constructor.
  - destruct (existsb (Pd.same a) seen) eqn:Ea; [apply IH|].
    destruct (IH (seen ++ [a])) as [Hs Hd].
    assert (Hsplit : Forall (fun v => existsb (Pd.same v) seen = false
                                      /\ Pd.same v a = false)
                       (Pd.unique_from (seen ++ [a]) s)).
    { eapply Forall_impl; [|exact Hs]. intros v Hv. simpl in Hv.
      rewrite existsb_app in Hv. simpl in Hv.
      apply orb_false_elim in Hv as [H1 H2].
      now rewrite orb_false_r in H2. }
    split.
    + constructor; [exact Ea|].
      eapply Forall_impl; [|exact Hsplit]. now intros v [H _].
    + constructor; [|exact Hd].
      eapply Forall_impl; [|exact Hsplit]. now intros v [_ H].
Qed.

Lemma str_compare_refl s : Pd.str_compare s s = Eq.
Proof.
  induction s as [|c s IH]; simpl; [reflexivity|].
  now rewrite Nat.compare_refl.
Qed.

Lemma SFcompare_refl f : Pd.is_nan f = false -> SFcompare f f = Some Eq.
Proof.
  destruct f as [s|s| |s m e]; simpl; try discriminate; intros _.
  - reflexivity.
  - now destruct s.
  - fold (Pos.compare m m). rewrite Z.compare_refl, Pos.compare_refl.
    now destruct s.
Qed.

(** A value that is present equals itself. *)
Lemma same_refl v : Pd.isna v = false -> Pd.same v v = true.
Proof.
  unfold Pd.same, Pd.compare_cell. intros H. rewrite H. simpl.
  destruct v as [z|f|b|s]; simpl.
  - now rewrite Z.compare_refl.
  - rewrite SFcompare_refl; [reflexivity|]. now destruct f.
  - now destruct b.
  - now rewrite str_compare_refl.
Qed.

(** Every value scanned that is present equals a value that is kept. *)
Lemma unique_from_covers s : forall seen v,
  In v s -> Pd.isna v = false ->
  existsb (Pd.same v) (seen ++ Pd.unique_from seen s) = true.
Proof.
  induction s as [|a s IH]; intros seen v H Hv; [destruct H|]. simpl.
  destruct (existsb (Pd.same a) seen) eqn:Ea.
  - destruct H as [->|H]; [|now apply IH].
    rewrite existsb_app, Ea. reflexivity.
  - destruct H as [->|H].
    + rewrite existsb_app. simpl.
      now rewrite (same_refl v Hv), orb_true_r.
    + specialize (IH (seen ++ [a]) v H Hv).
      now rewrite <- app_assoc in IH.
Qed.

Lemma unique_values_query :
  column_query (Py.lower (Py.strip ("Unique values of City" : str)))
    ("unique" : str) ("city" : str).
Proof.
  exists (column_pattern "unique values of "). eexists.
  split; [do 6 right; left; reflexivity|].
  split; [reflexivity|]. split; [lazy; reflexivity | reflexivity].
Qed.

(** C6. A unique-values query on an existing column returns the list of
    the distinct values of the column that are present, in the order of
    their first occurrence: the cells themselves, as the column holds
    them; none is missing, no two are equal, every value of the column
    that is present equals one of them, and scanning the column from the
    top each cell is appended exactly when it is present and new. *)
Theorem unique_values_first_occurrence
    (c : CSVTool) (d : Pd.DataFrame) (prompt col : str) (s : Pd.Series)
    (Hd : df c = Some d)
    (Hq : column_query (Py.lower (Py.strip prompt)) ("unique" : str) col)
    (Hs : Pd.getitem d (Py.strip col) = Ok s) :
  let answer (cells : Pd.Series) := Pd.unique (Pd.dropna cells) in
  simple c prompt = Ok (RList (answer s))
  /\ Forall (fun v => In v s /\ Pd.isna v = false) (answer s)
  /\ distinct (answer s)
  /\ (forall v, In v s -> Pd.isna v = false ->
                existsb (Pd.same v) (answer s) = true)
  /\ answer [] = []
  /\ (forall top x,
        answer (top ++ [x])
        = answer top
          ++ (if Pd.isna x || existsb (Pd.same x) (answer top)
              then [] else [x])).
Proof.
  intros answer. unfold answer.
  split; [|split; [|split; [|split; [|split]]]].
  - rewrite (simple_column_query _ d _ _ _ Hd Hq).
    unfold column_action. rewrite (getitem_has_column _ _ _ Hs), Hs.
    reflexivity.
  - apply Forall_forall. intros v Hv.
    apply unique_from_In in Hv. now apply dropna_In.
  - apply (unique_from_distinct (Pd.dropna s) []).
  - intros v Hv Hp.
    apply (unique_from_covers (Pd.dropna s) [] v); [|exact Hp].
    now apply dropna_In.
  - reflexivity.
  - intros top x. unfold Pd.dropna. rewrite filter_app. simpl.
    destruct (Pd.isna x); simpl.
    + now rewrite app_nil_r, app_nil_r.
    + apply unique_snoc.
Qed.

(** The cities of the sample: the missing cell and the repetitions are left
    out. *)
Lemma unique_values_first_occurrence_witness :
  simple sample_store ("Unique values of City" : str)
  = Ok (RList [VStr "paris"; VStr "rome"; VStr "oslo"]).
Proof.
  exact (proj1 (unique_values_first_occurrence sample_store sample
                  ("Unique values of City" : str) ("city" : str) _
                  eq_refl unique_values_query eq_refl)).
Defined.

(** ** Letter case of column names *)









(** ** Filter and top N *)

Lemma digit_not_space c : Py.isdigit c = true -> Py.isspace c = false.
Proof. each_char c. Qed.

Lemma digit_not_space_c c : Py.isdigit c = true -> Py.isspace_c c = false.
Proof. each_char c. Qed.

Lemma digit_not_sign c s :
  Py.isdigit c = true -> Py.sign (c :: s) = (false, c :: s).
Proof. unfold Py.sign. each_char c. Qed.

Lemma scan_digits_all s :
  Forall (fun c => Py.isdigit c = true) s -> Py.scan_digits s = (s, []).
Proof.
  induction 1 as [|c s Hc _ IH]; simpl; [reflexivity|].
  now rewrite Hc, IH.
Qed.

Lemma Z_of_digits_nonneg ds : (0 <= Py.Z_of_digits ds)%Z.
Proof.
  unfold Py.Z_of_digits.
  assert (G : forall acc, (0 <= acc)%Z ->
              (0 <= fold_left (fun a c => 10 * a + Py.digit_val c) ds acc)%Z).
  { induction ds as [|c ds IH]; cbn [fold_left]; intros acc Ha;
      [exact Ha|].
    apply IH. unfold Py.digit_val. lia. }
  apply G. lia.
Qed.

(** [int] of a run of digits: the digits are all counted against the
    limit. *)
Lemma int_of_run t :
  t <> [] -> Forall (fun c => Py.isdigit c = true) t ->
  Py.int t
  = if Py.max_str_digits <? length t
    then Raise (ValueError (Py.exceeds_limit (length t)))
    else Ok (Py.Z_of_digits t).
Proof.
  intros Hne Hd. unfold Py.int. rewrite strip_by_noop.
  - destruct t as [|c t]; [congruence|].
    inversion Hd as [|? ? Hc Ht]; subst.
    rewrite (digit_not_sign c t Hc). unfold Py.digitpart.
    rewrite Hc, (scan_digits_all t Ht). reflexivity.
  - eapply Forall_impl; [|exact Hd]. apply digit_not_space_c.
Qed.

(** [int] of a run of at most 4300 digits is a count. *)
Lemma int_of_digits t :
  t <> [] -> Forall (fun c => Py.isdigit c = true) t ->
  length t <= Py.max_str_digits ->
  exists n : nat, Py.int t = Ok (Z.of_nat n).
Proof.
  intros Hne Hd Hlen. exists (Z.to_nat (Py.Z_of_digits t)).
  rewrite (int_of_run t Hne Hd).
  destruct (Nat.ltb_spec Py.max_str_digits (length t)) as [H|H]; [lia|].
  rewrite Z2Nat.id by apply Z_of_digits_nonneg. reflexivity.
Qed.

(** [int] refuses a longer run. *)
Lemma int_of_many_digits t :
  Forall (fun c => Py.isdigit c = true) t ->
  Py.max_str_digits < length t ->
  Py.int t = Raise (ValueError (Py.exceeds_limit (length t))).
Proof.
  intros Hd Hlen.
  assert (Hne : t <> []).
  { intros ->. cbn [length] in Hlen. lia. }
  rewrite (int_of_run t Hne Hd).
  now destruct (Nat.ltb_spec Py.max_str_digits (length t)) as [H|H]; [|lia].
Qed.

Lemma ops_getitem_known op :
  In op op_texts -> exists f, ops_getitem op = Ok f.
Proof.
  unfold op_texts, ops. simpl. intros H.
  repeat destruct H as [<-|H]; try (eexists; reflexivity). destruct H.
Qed.

Lemma has_column_getitem d col :
  Pd.has_column d col = true -> exists s, Pd.getitem d col = Ok s.
Proof.
  unfold Pd.has_column, Pd.getitem. intros H.
  destruct (find _ (Pd.columns d)) as [c|] eqn:E; [eauto|].
  apply existsb_exists in H as (c & HIn & Hc).
  now rewrite (find_none _ _ E c HIn) in Hc.
Qed.

Lemma getitem_length d col s :
  Pd.wf d -> Pd.getitem d col = Ok s -> length s = Pd.len d.
Proof.
  unfold Pd.wf, Pd.getitem, Pd.len. intros Hwf H.
  destruct (find _ (Pd.columns d)) as [c|] eqn:E; [|discriminate].
  injection H as <-. apply find_some in E as [HIn _].
  rewrite Forall_forall in Hwf. now apply Hwf.
Qed.

Lemma compare_Ok_map f x s : forall mask,
  Pd.compare f s x = Ok mask -> mask = map (holds f x) s.
Proof.
  induction s as [|a s IH]; simpl; intros mask H.
  - now injection H as <-.
  - apply bind_Ok_inv in H as (b & Hb & H).
    apply bind_Ok_inv in H as (bs & Hbs & H).
    injection H as <-. unfold holds at 1. rewrite Hb.
    rewrite <- (IH bs Hbs). now destruct b.
Qed.

Lemma select_positions {A} (dflt : A) mask : forall xs,
  length xs = length mask ->
  Pd.select mask xs = map (fun i => nth i xs dflt) (positions mask).
Proof.
  unfold positions.
  induction mask as [|b mask IH]; intros xs Hl; [reflexivity|].
  destruct xs as [|x xs]; [discriminate|]. injection Hl as Hl.
  cbn [Pd.select length seq filter nth].
  rewrite <- seq_shift, filter_map_swap. cbn [nth].
  rewrite (IH xs Hl).
  destruct b; cbn [map nth]; rewrite map_map; reflexivity.
Qed.

Lemma map_nth_seq {A} (dflt : A) l :
  map (fun j => nth j l dflt) (seq 0 (length l)) = l.
Proof.
  induction l as [|x l IH]; [reflexivity|].
  cbn [length seq map nth]. rewrite <- seq_shift, map_map.
  cbn [nth]. now rewrite IH.
Qed.

Lemma nth_map_in {A B} (g : A -> B) l j (da : A) (db : B) :
  j < length l -> nth j (map g l) db = g (nth j l da).
Proof.
  intros H. rewrite (nth_indep (map g l) db (g da)).
  - apply map_nth.
  - now rewrite length_map.
Qed.

Lemma row_cell_row_at d col s i :
  Pd.getitem d col = Ok s ->
  row_cell (row_at d i) col = Some (cell_at s i).
Proof.
  unfold Pd.getitem, row_cell, row_at. cbn [snd].
  induction (Pd.columns d) as [|c cs IH]; simpl; [discriminate|].
  destruct (str_eqb (fst c) col); [|exact IH].
  now intros [= <-].
Qed.

Lemma slice_to_nat {A} n (xs : list A) :
  Pd.slice_to (Z.of_nat n) xs = firstn n xs.
Proof.
  unfold Pd.slice_to.
  destruct (Z.leb_spec 0 (Z.of_nat n)); [|lia]. now rewrite Nat2Z.id.
Qed.

Lemma satisfies_row_at d col f x s i :
  Pd.getitem d col = Ok s ->
  satisfies col f x (row_at d i) = holds f x (cell_at s i).
Proof.
  intros Hs. unfold satisfies. now rewrite (row_cell_row_at d col s i Hs).
Qed.

(** The rows of [df[mask].head(n)] are the first [n] rows of [df] whose
    cell in the column compares as asked. *)
Lemma rows_head_mask d col f x s n :
  Pd.wf d -> Pd.getitem d col = Ok s ->
  rows (Pd.head (Pd.getitem_mask d (map (holds f x) s)) (Z.of_nat n))
  = firstn n (filter (satisfies col f x) (rows d)).
Proof.
  intros Hwf Hs.
  set (mask := map (holds f x) s).
  set (ps := firstn n (positions mask)).
  assert (Hlen : length mask = Pd.len d).
  { unfold mask. rewrite length_map. now apply getitem_length with col. }
  (* the right-hand side, by positions *)
  assert (R : firstn n (filter (satisfies col f x) (rows d))
              = map (row_at d) ps).
  { unfold rows. rewrite filter_map_swap, firstn_map. f_equal.
    unfold ps, positions. f_equal. rewrite Hlen.
    apply filter_ext_in. intros i Hi. apply in_seq in Hi.
    rewrite (satisfies_row_at d col f x s i Hs).
    unfold mask, cell_at. symmetry. apply nth_map_in.
    rewrite (getitem_length d col s Hwf Hs). lia. }
  rewrite R. clear R.
  (* the left-hand side, column by column *)
  assert (Hidx : Pd.index (Pd.head (Pd.getitem_mask d mask) (Z.of_nat n))
                 = map (fun i => nth i (Pd.index d) 0%Z) ps).
  { cbn [Pd.head Pd.getitem_mask Pd.index]. rewrite slice_to_nat.
    unfold ps. rewrite <- firstn_map. f_equal.
    apply select_positions. now rewrite Hlen. }
  assert (Hcols : Pd.columns (Pd.head (Pd.getitem_mask d mask) (Z.of_nat n))
                  = map (fun c => (fst c, map (fun i => cell_at (snd c) i) ps))
                      (Pd.columns d)).
  { cbn [Pd.head Pd.getitem_mask Pd.columns]. rewrite map_map.
    apply map_ext_in. intros c Hc. cbn [fst snd]. f_equal.
    rewrite slice_to_nat. unfold ps. rewrite <- firstn_map. f_equal.
    apply select_positions. rewrite Hlen.
    unfold Pd.wf in Hwf. rewrite Forall_forall in Hwf. now apply Hwf. }
  unfold rows, Pd.len. rewrite Hidx, length_map.
  rewrite <- (map_nth_seq 0 ps) at 2. rewrite map_map.
  apply map_ext_in. intros j Hj. apply in_seq in Hj.
  unfold row_at. rewrite Hidx, Hcols. f_equal.
  - apply (nth_map_in (fun i => nth i (Pd.index d) 0%Z) ps j 0 0%Z). lia.
  - rewrite map_map. apply map_ext. intros c. cbn [fst snd]. f_equal.
    unfold cell_at at 1.
    apply (nth_map_in (fun i => cell_at (snd c) i) ps j 0 (VFloat Pd.nan)).
    lia.
Qed.

Lemma In_firstn {A} n (l : list A) x : In x (firstn n l) -> In x l.
Proof.
  intros H. rewrite <- (firstn_skipn n l). apply in_or_app. now left.
Qed.

Lemma compare_total f x s :
  Forall (fun a => exists b, Pd.compare_cell f a x = Ok b) s ->
  exists mask, Pd.compare f s x = Ok mask.
Proof.
  induction 1 as [|a s [b Hb] _ [mask IH]]; simpl.
  - now exists [].
  - rewrite Hb, IH. simpl. eauto.
Qed.

(** Equality and inequality compare any two cells. *)
Lemma compare_cell_eq_total f a x :
  f = Pd.Eq_ \/ f = Pd.Ne_ -> exists b, Pd.compare_cell f a x = Ok b.
Proof.
  unfold Pd.compare_cell. intros Hf.
  destruct (Pd.isna a || Pd.isna x); [eauto|].
  destruct a as [m|g|b|s], x as [m'|g'|b'|s'];
    destruct Hf as [-> | ->]; simpl; eauto;
    match goal with
    | |- context [SFcompare ?u ?v] => destruct (SFcompare u v); eauto
    end.
Qed.

Lemma filter_price_query :
  filter_query
    (Py.lower (Py.strip ("Filter price > 100 and show top 2" : str)))
    ("price " : str) (">" : str) ("100" : str) ("2" : str).
Proof. eexists. split; [lazy; reflexivity | reflexivity]. Qed.

Lemma sample_wf : Pd.wf sample.
Proof. repeat constructor. Qed.

Lemma ops_getitem_text op f :
  ops_getitem op = Ok f ->
  In (op, f)
    [ ("==" : str, Pd.Eq_); ("=" : str, Pd.Eq_); (">=" : str, Pd.Ge_);
      ("<=" : str, Pd.Le_); (">" : str, Pd.Gt_); ("<" : str, Pd.Lt_);
      ("!=" : str, Pd.Ne_) ].
Proof.
  unfold ops_getitem, ops. cbn [find fst snd]. intros H.
  repeat match type of H with
         | context [str_eqb ?w op] =>
             destruct (str_eqb w op) eqn:E;
             [apply str_eqb_eq in E; subst op; injection H as <-;
              cbn [In]; tauto
             |clear E]
         end.
  discriminate H.
Qed.

(** The comparison that the dictionary [ops] has for an operator decides
    as the text of the operator says. *)
Lemma compare_cell_op op f a x b :
  ops_getitem op = Ok f ->
  Pd.compare_cell f a x = Ok b ->
  b = op_decides op (order a x).
Proof.
  intros Hop. apply ops_getitem_text in Hop. cbn [In] in Hop.
  unfold Pd.compare_cell, order.
  destruct (Pd.isna a || Pd.isna x).
  - repeat destruct Hop as [Hop|Hop]; try (exfalso; exact Hop);
      apply pair_eq_inv in Hop as [-> ->]; now intros [= <-].
  - destruct a as [m|g|u|t], x as [m'|g'|u'|t'];
      cbn [Pd.as_int Pd.as_float];
      repeat destruct Hop as [Hop|Hop]; try (exfalso; exact Hop);
      apply pair_eq_inv in Hop as [-> ->];
      try (intros [= <-]; reflexivity);
      try discriminate;
      match goal with
      | |- context [Z.compare ?u ?v] => destruct (Z.compare u v)
      | |- context [SFcompare ?u ?v] => destruct (SFcompare u v) as [[]|]
      | |- context [Pd.str_compare ?u ?v] => destruct (Pd.str_compare u v)
      end;
      now intros [= <-].
Qed.

Lemma compare_Ok_cells f x s : forall mask,
  Pd.compare f s x = Ok mask ->
  Forall (fun a => exists b, Pd.compare_cell f a x = Ok b) s.
Proof.
  induction s as [|a s IH]; cbn [Pd.compare]; intros mask H;
    [constructor|].
  apply bind_Ok_inv in H as (b & Hb & H).
  apply bind_Ok_inv in H as (bs & Hbs & _).
  constructor; eauto.
Qed.

(** A comparison that fails raises [TypeError]. *)
Lemma compare_cell_raises f a x e :
  Pd.compare_cell f a x = Raise e -> exists msg, e = TypeError msg.
Proof.
  unfold Pd.compare_cell.
  destruct (Pd.isna a || Pd.isna x); [discriminate|].
  destruct a as [m|g|u|t], x as [m'|g'|u'|t'], f;
    cbn [Pd.as_int Pd.as_float]; try discriminate;
    try (intros [= <-]; eauto);
    match goal with
    | |- context [SFcompare ?u ?v] => destruct (SFcompare u v); discriminate
    end.
Qed.

Lemma compare_raises f x s : forall e,
  Pd.compare f s x = Raise e -> exists msg, e = TypeError msg.
Proof.
  induction s as [|a s IH]; cbn [Pd.compare]; intros e H;
    [discriminate|].
  destruct (Pd.compare_cell f a x) as [b|e'] eqn:E; cbn [bind] in H.
  - destruct (Pd.compare f s x) as [bs|e''] eqn:E'; cbn [bind] in H;
      [discriminate|].
    injection H as <-. now apply IH.
  - injection H as <-. now apply compare_cell_raises in E.
Qed.

(** On the rows of a table whose column was compared, the comparison of
    the model selects as the text of the operator says. *)
Lemma satisfies_matches d col op f x s mask :
  Pd.wf d -> Pd.getitem d col = Ok s ->
  ops_getitem op = Ok f ->
  Pd.compare f s x = Ok mask ->
  filter (satisfies col f x) (rows d) = filter (matches col op x) (rows d).
Proof.
  intros Hwf Hs Hop Hc. apply filter_ext_in. intros r Hr.
  unfold rows in Hr. apply in_map_iff in Hr as (i & <- & Hi).
  apply in_seq in Hi.
  rewrite (satisfies_row_at d col f x s i Hs).
  unfold matches. rewrite (row_cell_row_at d col s i Hs).
  apply compare_Ok_cells in Hc. rewrite Forall_forall in Hc.
  destruct (Hc (cell_at s i)) as [b Hb].
  { unfold cell_at. apply nth_In.
    rewrite (getitem_length d col s Hwf Hs). lia. }
  unfold holds. rewrite Hb.
  rewrite (compare_cell_op op f _ x b Hop Hb).
  now destruct (op_decides op (order (cell_at s i) x)).
Qed.

(** C3. A filter query on an existing column compares the column, cell
    by cell, with the coerced value, as the text of its operator says.
    When N has no more digits than [int] takes and no cell refuses the
    comparison (text against a number has no order, and raises
    [TypeError]), the answer is a table of at most N rows, every one of
    them stands to the value as the operator says, and they are the first
    N such rows of the dataset, in the order of the dataset, under the
    same column names; this where pandas compares cell by cell
    ([cell_by_cell]).  An N of more than 4300 digits raises
    [ValueError]. *)
Theorem filter_returns_first_matching_rows
    (c : CSVTool) (d : Pd.DataFrame) (prompt col op val topn : str)
    (Hd : df c = Some d)
    (Hwf : Pd.wf d)
    (Hq : filter_query (Py.lower (Py.strip prompt)) col op val topn)
    (Hcol : Pd.has_column d (Py.strip col) = true) :
  exists (f : Pd.cmpop) (x : value) (s : Pd.Series),
    ops_getitem op = Ok f
    /\ _coerce_value val = Ok x
    /\ Pd.getitem d (Py.strip col) = Ok s
    /\ (Py.max_str_digits < length topn ->
        simple c prompt
        = Raise (ValueError (Py.exceeds_limit (length topn))))
    /\ (length topn <= Py.max_str_digits ->
        exists n : nat,
          Py.int topn = Ok (Z.of_nat n)
          /\ match Pd.compare f s x with
             | Raise _ => exists msg, simple c prompt = Raise (TypeError msg)
             | Ok mask =>
                 cell_by_cell f x s ->
                 exists t,
                   simple c prompt = Ok (RTable t)
                   /\ length (rows t) <= n
                   /\ Forall (fun r =>
                                satisfies (Py.strip col) f x r = true)
                        (rows t)
                   /\ Forall (fun r =>
                                matches (Py.strip col) op x r = true)
                        (rows t)
                   /\ rows t
                      = firstn n
                          (filter (satisfies (Py.strip col) f x) (rows d))
                   /\ rows t
                      = firstn n
                          (filter (matches (Py.strip col) op x) (rows d))
                   /\ map fst (Pd.columns t) = map fst (Pd.columns d)
             end)
    /\ (Forall (fun a => exists b, Pd.compare_cell f a x = Ok b) s ->
        exists mask, Pd.compare f s x = Ok mask)
    /\ (f = Pd.Eq_ \/ f = Pd.Ne_ -> exists mask, Pd.compare f s x = Ok mask).
Proof.
  pose proof Hq as (m & Hm & Hg).
  apply filter_pattern_sound in Hm
    as (g1 & w1 & g2 & w2 & g3 & w3 & w4 & g4 & rest & _ & Hg' & _ & Hop
        & _ & [Hne Hdig] & _).
  rewrite Hg in Hg'. injection Hg' as <- <- <- <-.
  destruct (ops_getitem_known op Hop) as [f Hf].
  destruct (has_column_getitem d _ Hcol) as [s Hs].
  exists f, (coerce_in_order val), s.
  repeat (split; [first [exact Hf | apply coerce_value_eq | exact Hs]|]).
  rewrite (simple_filter_query c d prompt col op val topn Hd Hq).
  unfold simple_filter. rewrite Hcol, coerce_value_eq.
  cbn [negb bind].
  split; [|split;
    [|split; [apply compare_total|];
      intros Hf'; apply compare_total, Forall_forall; intros a _;
      now apply compare_cell_eq_total]].
  - intros Hlen. now rewrite (int_of_many_digits topn Hdig Hlen).
  - intros Hlen. destruct (int_of_digits topn Hne Hdig Hlen) as [n Hn].
    exists n. split; [exact Hn|].
    rewrite Hn, Hf, Hs. cbn [bind].
    destruct (Pd.compare f s (coerce_in_order val)) as [mask|e] eqn:Ec;
      cbn [bind].
    2:{ destruct (compare_raises _ _ _ _ Ec) as [msg ->]. now exists msg. }
    intros _.
    pose proof (satisfies_matches d (Py.strip col) op f
                  (coerce_in_order val) s mask Hwf Hs Hf Ec) as Hsm.
    apply compare_Ok_map in Ec. subst mask.
    eexists. split; [reflexivity|].
    rewrite (rows_head_mask d (Py.strip col) f (coerce_in_order val) s n
               Hwf Hs).
    split; [apply firstn_le_length|].
    split; [|split; [|split; [reflexivity|split]]].
    + apply Forall_forall. intros r Hr.
      apply In_firstn in Hr. now apply filter_In in Hr.
    + apply Forall_forall. intros r Hr. rewrite Hsm in Hr.
      apply In_firstn in Hr. now apply filter_In in Hr.
    + now rewrite Hsm.
    + cbn [Pd.head Pd.getitem_mask Pd.columns]. rewrite !map_map.
      reflexivity.
Qed.

(** The two first rows of the sample with a price above 100: the rows 0
    and 2, which hold 120 and 300. *)
Lemma filter_returns_first_matching_rows_witness :
  exists t,
    simple sample_store ("Filter price > 100 and show top 2" : str)
    = Ok (RTable t)
    /\ length (rows t) <= 2
    /\ Forall (fun r => matches ("price" : str) (">" : str) (VInt 100) r
                        = true) (rows t)
    /\ rows t
       = firstn 2
           (filter (matches ("price" : str) (">" : str) (VInt 100))
              (rows sample))
    /\ map (fun r => row_cell r ("price" : str)) (rows t)
       = [Some (VInt 120); Some (VInt 300)].
Proof.
  destruct (filter_returns_first_matching_rows sample_store sample
              ("Filter price > 100 and show top 2" : str)
              ("price " : str) (">" : str) ("100" : str) ("2" : str)
              eq_refl sample_wf filter_price_query eq_refl)
    as (f & x & s & Hf & Hx & Hs & _ & H & _).
  vm_compute in Hf, Hx, Hs.
  injection Hf as <-. injection Hx as <-. injection Hs as <-.
  destruct (H ltac:(apply Nat.leb_le; reflexivity)) as (n & Hn & H').
  vm_compute in Hn. injection Hn as Hn.
  apply (Nat2Z.inj 2 n) in Hn. subst n.
  cbn [Pd.compare Pd.compare_cell Pd.isna orb Pd.as_int Pd.decide_cmp
       Z.compare Pos.compare Pos.compare_cont bind] in H'.
  destruct (H' ltac:(right; right; left; discriminate))
    as (t & Ht & Hlen & _ & Hall & _ & Hrows & _).
  exists t. repeat split; try assumption.
  rewrite Hrows. reflexivity.
Defined.

(** ** Texts of the documented shapes are recognised *)

Lemma firstn_capture (pre s' : str) :
  firstn (length (pre ++ s') - length s') (pre ++ s') = pre.
Proof.
  rewrite length_app, Nat.add_sub, firstn_app, Nat.sub_diag, firstn_all.
  cbn [firstn]. apply app_nil_r.
Qed.

Section Greedy.
Variable A : Type.
Variable n : nat.

(** A repetition takes the whole run in front of it when what follows
    the run then matches. *)
Lemma star_greedy cc run rest (k : str -> option A) x :
  Forall (fun c => Re.mem cc c = true) run ->
  stops cc rest ->
  k rest = Some x ->
  Re.star cc (run ++ rest) k = Some x.
Proof.
  intros Hrun Hstop Hk.
  induction Hrun as [|c run Hc _ IH]; cbn [Re.star app].
  - destruct rest as [|c rest]; [exact Hk|].
    cbn [Re.star]. unfold stops in Hstop. now rewrite Hstop.
  - now rewrite Hc, IH.
Qed.

Lemma exec_seq_bol r s caps (k : str -> list str -> option A) :
  length s = n ->
  Re.exec n (Re.Bol ;; r)%re s caps k = Re.exec n r s caps k.
Proof. intros <-. cbn [Re.exec]. now rewrite Nat.eqb_refl. Qed.

Lemma exec_seq_lit l r rest caps (k : str -> list str -> option A) :
  Re.exec n (Re.Lit l ;; r)%re (l ++ rest) caps k
  = Re.exec n r rest caps k.
Proof. cbn [Re.exec]. now rewrite strip_prefix_app. Qed.

Lemma exec_seq_star cc r run rest caps
    (k : str -> list str -> option A) x :
  Forall (fun c => Re.mem cc c = true) run ->
  stops cc rest ->
  Re.exec n r rest caps k = Some x ->
  Re.exec n (Re.Star cc ;; r)%re (run ++ rest) caps k = Some x.
Proof. intros. cbn [Re.exec]. now apply star_greedy. Qed.

Lemma exec_seq_group_plus cc r run rest caps
    (k : str -> list str -> option A) x :
  run <> [] ->
  Forall (fun c => Re.mem cc c = true) run ->
  stops cc rest ->
  Re.exec n r rest (caps ++ [run]) k = Some x ->
  Re.exec n (Re.Group (Re.Plus cc) ;; r)%re (run ++ rest) caps k = Some x.
Proof.
  intros Hne Hrun Hstop Hk.
  destruct run as [|c run]; [congruence|].
  inversion Hrun as [|? ? Hc Hrun']; subst.
  cbn [Re.exec app]. rewrite Hc.
  apply star_greedy; [exact Hrun' | exact Hstop |].
  change (c :: run ++ rest) with ((c :: run) ++ rest).
  now rewrite firstn_capture.
Qed.

(** The operator in front of a blank is the one captured. *)
Lemma exec_seq_operators r op rest caps
    (k : str -> list str -> option A) x :
  In op op_texts ->
  Re.exec n r (" "%char :: rest) (caps ++ [op]) k = Some x ->
  Re.exec n (Re.Group operators ;; r)%re (op ++ " "%char :: rest) caps k
  = Some x.
Proof.
  intros HIn H.
  change (Re.exec n operators (op ++ " "%char :: rest) caps
            (fun s' caps' =>
               Re.exec n r s'
                 (caps' ++ [firstn (length (op ++ " "%char :: rest)
                                    - length s')
                              (op ++ " "%char :: rest)]) k)
          = Some x).
  set (k' := fun s' caps' => Re.exec n r s' _ k).
  assert (Hk' : k' (" "%char :: rest) caps = Some x).
  { unfold k'. now rewrite firstn_capture. }
  clearbody k'. revert Hk'.
  unfold op_texts, ops in HIn. cbn [map fst In] in HIn.
  repeat destruct HIn as [<-|HIn]; try (exfalso; exact HIn);
    unfold operators; cbn; intros ->; reflexivity.
Qed.
End Greedy.

Lemma nonspace_not_space c :
  Re.mem nonspace c = true -> Re.mem spaces c = false.
Proof. cbn. now destruct (Py.isspace c). Qed.

Lemma digit_mem_digits c : Py.isdigit c = true -> Re.mem digits c = true.
Proof. cbn. now intros ->. Qed.

Lemma digit_not_spaces c : Py.isdigit c = true -> Re.mem spaces c = false.
Proof. intros H. cbn. now rewrite (digit_not_space c H). Qed.

Lemma op_not_colchars op rest :
  In op op_texts -> stops colchars (op ++ rest).
Proof.
  unfold op_texts, ops. cbn [map fst In]. intros H.
  repeat destruct H as [<-|H]; try (exfalso; exact H); reflexivity.
Qed.

Lemma op_not_spaces op rest :
  In op op_texts -> stops spaces (op ++ rest).
Proof.
  unfold op_texts, ops. cbn [map fst In]. intros H.
  repeat destruct H as [<-|H]; try (exfalso; exact H); reflexivity.
Qed.

(** The filter shape recognises [filter <column> <op> <value> and show
    top <N>] written with single blanks, and captures its four parts (the
    column with the blank that follows it). *)
Lemma filter_pattern_complete col op val topn :
  col <> [] -> Forall (fun c => Re.mem colchars c = true) col ->
  In op op_texts ->
  val <> [] -> Forall (fun c => Re.mem nonspace c = true) val ->
  topn <> [] -> Forall (fun c => Py.isdigit c = true) topn ->
  let p := ("filter " : str) ++ col ++ (" " : str) ++ op ++ (" " : str)
           ++ val ++ (" and show top " : str) ++ topn in
  Re.match_ FILTER_PATTERN p
  = Some {| Re.groups := [col ++ (" " : str); op; val; topn];
            Re.end_ := length p |}.
Proof.
  intros Hc1 Hc2 Hop Hv1 Hv2 Ht1 Ht2 p.
  unfold Re.match_, FILTER_PATTERN.
  rewrite exec_seq_bol by reflexivity.
  generalize (length p). intros n. unfold p. clear p.
  rewrite exec_seq_lit.
  replace (col ++ (" " : str) ++ op ++ (" " : str) ++ val
           ++ (" and show top " : str) ++ topn)
    with ((col ++ (" " : str))
          ++ (op ++ " "%char :: val ++ (" and show top " : str) ++ topn))
    by (now rewrite <- app_assoc).
  apply exec_seq_group_plus.
  { now destruct col. }
  { apply Forall_app. split; [exact Hc2|]. now repeat constructor. }
  { now apply op_not_colchars. }
  apply (exec_seq_star _ _ spaces _ []); [constructor | |].
  { now apply op_not_spaces. }
  apply exec_seq_operators; [exact Hop|].
  destruct val as [|v val]; [congruence|].
  inversion Hv2 as [|? ? Hv Hval]; subst.
  apply (exec_seq_star _ _ spaces _ [" "%char]);
    [now repeat constructor | now apply nonspace_not_space |].
  change (((v :: val) ++ (" and show top " : str) ++ topn))
    with ((v :: val) ++ (" "%char :: ("and show top" : str)
                         ++ " "%char :: topn)).
  apply exec_seq_group_plus; [discriminate | exact Hv2 | reflexivity |].
  apply (exec_seq_star _ _ spaces _ [" "%char]);
    [now repeat constructor | reflexivity |].
  rewrite exec_seq_lit.
  destruct topn as [|t topn]; [congruence|].
  inversion Ht2 as [|? ? Ht Htop]; subst.
  apply (exec_seq_star _ _ spaces _ [" "%char]);
    [now repeat constructor | now apply digit_not_spaces |].
  rewrite <- (app_nil_r (t :: topn)) at 1.
  apply exec_seq_group_plus; [discriminate | | exact I |].
  { eapply Forall_impl; [|exact Ht2]. apply digit_mem_digits. }
  cbn [Re.exec app length]. rewrite Nat.sub_0_r. reflexivity.
Qed.

Lemma filter_query_intro col op val topn :
  col <> [] -> Forall (fun c => Re.mem colchars c = true) col ->
  In op op_texts ->
  val <> [] -> Forall (fun c => Re.mem nonspace c = true) val ->
  topn <> [] -> Forall (fun c => Py.isdigit c = true) topn ->
  filter_query
    (("filter " : str) ++ col ++ (" " : str) ++ op ++ (" " : str)
     ++ val ++ (" and show top " : str) ++ topn)
    (col ++ (" " : str)) op val topn.
Proof.
  intros. eexists. split; [now apply filter_pattern_complete | reflexivity].
Qed.

(** A column shape recognises its words followed by a column name, and
    captures the name. *)
Lemma column_pattern_complete words g :
  g <> [] -> Forall (fun c => Re.mem colchars c = true) g ->
  Re.match_ (column_pattern words) (words ++ g)
  = Some {| Re.groups := [g]; Re.end_ := length (words ++ g) |}.
Proof.
  intros Hne Hg. unfold Re.match_, column_pattern.
  rewrite exec_seq_bol by reflexivity.
  generalize (length (words ++ g)). intros n.
  rewrite exec_seq_lit. rewrite <- (app_nil_r g) at 1.
  apply exec_seq_group_plus; auto; [exact I|].
  cbn [Re.exec app length]. now rewrite Nat.sub_0_r.
Qed.

Lemma column_query_intro words kind g :
  In (column_pattern words, kind) SIMPLE_PATTERNS ->
  g <> [] -> Forall (fun c => Re.mem colchars c = true) g ->
  column_query (words ++ g) kind g.
Proof.
  intros HIn Hne Hg. exists (column_pattern words). eexists.
  split; [exact HIn|]. split.
  - unfold SIMPLE_PATTERNS in HIn. cbn [In] in HIn.
    repeat destruct HIn as [HIn|HIn]; try (exfalso; exact HIn);
      try (apply pair_eq_inv in HIn as [_ ->]; reflexivity).
    discriminate HIn.
  - split; [now apply column_pattern_complete | reflexivity].
Qed.

(** ** Text outside ASCII *)

(** A column with an accented name is reached, in any letter case of its
    name: [SUM OF CAF] and the capital E with an acute accent (201). *)
Example accented_column_is_summed :
  simple cafe_store (("sum of " : str) ++ cafe)
  = Ok (RFloat (Py.float_of_Z 3))
  /\ simple cafe_store (("SUM OF CAF" : str) ++ ["201"%char])
     = Ok (RFloat (Py.float_of_Z 3)).
Proof. split; vm_compute; reflexivity. Qed.

(** No-break spaces around a question are trimmed, and one after the
    value of a filter ends the value. *)
Example no_break_space_is_a_blank :
  simple sample_store ([nbsp] ++ ("count rows" : str) ++ [nbsp])
  = Ok (RInt 6)
  /\ simple sample_store
       (("filter price > 100" : str) ++ [nbsp]
        ++ (" and show top 2" : str))
     = simple sample_store ("filter price > 100 and show top 2" : str).
Proof. split; vm_compute; reflexivity. Qed.

(** ** The examples of the specification *)

Example count_rows_of_sample :
  simple sample_store ("count rows" : str) = Ok (RInt 6).
Proof. vm_compute. reflexivity. Qed.

(** 20.0 is [5629499534213120 * 2^-48]. *)
Example average_of_three_prices :
  simple {| df := Some three_prices; name := "prices.csv" |}
    ("average of price" : str)
  = Ok (RFloat (S754_finite false 5629499534213120 (-48))).
Proof. vm_compute. reflexivity. Qed.

Example filter_top_two_of_sample :
  simple sample_store ("filter price > 100 and show top 2" : str)
  = Ok (RTable
          {| Pd.index := [0; 2]%Z;
             Pd.columns :=
               [ ("city" : str, [VStr "paris"; VFloat Pd.nan]);
                 ("price" : str, [VInt 120; VInt 300]);
                 ("Qty" : str, [VInt 1; VInt 3]) ] |}).
Proof. vm_compute. reflexivity. Qed.

Example filter_text_has_no_order :
  exists msg,
    simple sample_store ("filter city > 100 and show top 2" : str)
    = Raise (TypeError msg).
Proof. eexists. vm_compute. reflexivity. Qed.

(** * More of the code *)

(** ** Preview *)

Lemma firstn_seq k a n : firstn k (seq a n) = seq a (Nat.min k n).
Proof.
  revert a n. induction k as [|k IH]; intros a n; [reflexivity|].
  destruct n as [|n]; [reflexivity|]. simpl. now rewrite IH.
Qed.

(** The table cut to its first [k] rows, row by row. *)
Lemma rows_firstn d k :
  rows {| Pd.index := firstn k (Pd.index d);
          Pd.columns :=
            map (fun c => (fst c, firstn k (snd c))) (Pd.columns d) |}
  = firstn k (rows d).
Proof.
  unfold rows, Pd.len. cbn [Pd.index Pd.columns].
  rewrite firstn_map, firstn_seq, length_firstn.
  apply map_ext_in. intros j Hj. apply in_seq in Hj.
  unfold row_at. cbn [Pd.index Pd.columns].
  assert (Hjk : (j <? k) = true) by (apply Nat.ltb_lt; lia).
  f_equal.
  - now rewrite nth_firstn, Hjk.
  - rewrite map_map. apply map_ext. intros c. cbn [fst snd].
    unfold cell_at. now rewrite nth_firstn, Hjk.
Qed.

Lemma rows_length d : length (rows d) = Pd.len d.
Proof. unfold rows. now rewrite length_map, length_seq. Qed.

Lemma rows_head d n :
  Pd.wf d -> rows (Pd.head d n) = Pd.slice_to n (rows d).
Proof.
  intros Hwf. unfold Pd.head, Pd.slice_to.
  destruct (0 <=? n)%Z.
  - apply rows_firstn.
  - rewrite rows_length. unfold Pd.len.
    rewrite <- (rows_firstn d (length (Pd.index d) - Z.to_nat (- n))).
    f_equal. f_equal. apply map_ext_in. intros c Hc.
    unfold Pd.wf in Hwf. rewrite Forall_forall in Hwf.
    now rewrite (Hwf c Hc).
Qed.

Lemma head_wf d n : Pd.wf d -> Pd.wf (Pd.head d n).
Proof.
  unfold Pd.wf, Pd.head. cbn [Pd.index Pd.columns]. intros Hwf.
  apply Forall_map. eapply Forall_impl; [|exact Hwf].
  intros c Hc. cbn [snd]. unfold Pd.slice_to.
  destruct (0 <=? n)%Z; rewrite !length_firstn, Hc; reflexivity.
Qed.

(** X1. The preview of a loaded table is the table cut to its first rows:
    [head(n)] keeps the first [n] rows in their order ([n >= 0]; all of
    them when the table has fewer), keeps all but the last [-n] rows for a
    negative [n], and keeps the column names and the alignment of the
    columns. *)
Theorem head_first_rows
    (a : CSVAgent) (d : Pd.DataFrame) (n : Z)
    (Hd : loaded a d) (Hwf : Pd.wf d) :
  exists t,
    CSVAgent_head a n = Ok t
    /\ Pd.wf t
    /\ map fst (Pd.columns t) = map fst (Pd.columns d)
    /\ (0 <= n -> rows t = firstn (Z.to_nat n) (rows d))%Z
    /\ (0 <= n -> length (rows t) = Nat.min (Z.to_nat n) (length (rows d)))%Z
    /\ (n < 0 ->
        rows t = firstn (length (rows d) - Z.to_nat (- n)) (rows d))%Z.
Proof.
  unfold CSVAgent_head, CSVTool_head. rewrite Hd.
  exists (Pd.head d n). split; [reflexivity|].
  split; [now apply head_wf|]. split.
  { cbn [Pd.head Pd.columns]. now rewrite map_map. }
  rewrite (rows_head d n Hwf). unfold Pd.slice_to.
  repeat split; intros Hn.
  - destruct (Z.leb_spec 0 n); [reflexivity | lia].
  - destruct (Z.leb_spec 0 n); [apply length_firstn | lia].
  - destruct (Z.leb_spec 0 n); [lia | reflexivity].
Qed.

(** The first two rows of the sample. *)
Lemma head_first_rows_witness :
  exists t,
    CSVAgent_head sample_agent 2 = Ok t
    /\ Pd.wf t
    /\ map fst (Pd.columns t) = map fst (Pd.columns sample)
    /\ (0 <= 2 -> rows t = firstn (Z.to_nat 2) (rows sample))%Z
    /\ (0 <= 2 ->
        length (rows t) = Nat.min (Z.to_nat 2) (length (rows sample)))%Z
    /\ (2 < 0 ->
        rows t
        = firstn (length (rows sample) - Z.to_nat (- 2)) (rows sample))%Z.
Proof.
  exact (head_first_rows sample_agent sample 2 eq_refl sample_wf).
Defined.

(** ** Counting rows *)

(** X2. [count rows], in any letter case and with blanks around it,
    returns the number of rows of the loaded table as an integer,
    whatever the cells hold, and [ask] returns the same. *)
Theorem count_rows_counts
    (sqldf : str -> Pd.DataFrame -> res Pd.DataFrame)
    (cell_type : CSVTool -> str -> str)
    (a : CSVAgent) (d : Pd.DataFrame) (prompt : str)
    (Hd : loaded a d)
    (Hp : Py.lower (Py.strip prompt) = ("count rows" : str)) :
  simple (csv a) prompt = Ok (RInt (Z.of_nat (length (rows d))))
  /\ fst (ask sqldf cell_type prompt a)
     = Ok (RInt (Z.of_nat (length (rows d)))).
Proof.
  assert (E : simple (csv a) prompt
              = Ok (RInt (Z.of_nat (length (rows d))))).
  { unfold simple. rewrite Hd, Hp, rows_length. reflexivity. }
  split; [exact E|]. rewrite ask_simple; [exact E|].
  now rewrite Hp.
Qed.

(** The six rows of the sample. *)
Lemma count_rows_counts_witness :
  simple (csv sample_agent) ("  Count ROWS " : str) = Ok (RInt 6)
  /\ fst (ask no_sql sample_cell_type ("  Count ROWS " : str) sample_agent)
     = Ok (RInt 6).
Proof.
  exact (count_rows_counts no_sql sample_cell_type sample_agent sample
           ("  Count ROWS " : str) eq_refl eq_refl).
Defined.

(** ** Chart data *)

Lemma has_column_In d x :
  Pd.has_column d x = true <-> In x (map fst (Pd.columns d)).
Proof.
  unfold Pd.has_column. rewrite existsb_exists, in_map_iff. split.
  - intros (c & Hc & E). apply str_eqb_eq in E. eauto.
  - intros (c & E & Hc). exists c. split; [exact Hc|].
    now apply str_eqb_eq.
Qed.

Lemma columns_labelled_Ok cols labels :
  Forall (fun l => In l (map fst cols)) labels ->
  exists found,
    columns_labelled cols labels = Ok found
    /\ found
       = flat_map (fun l => filter (fun c => str_eqb (fst c) l) cols) labels.
Proof.
  induction 1 as [|l labels Hl _ (more & IH & Hmore)]; simpl.
  - now exists [].
  - destruct (filter (fun c => str_eqb (fst c) l) cols) as [|c cs] eqn:E.
    + exfalso. apply in_map_iff in Hl as (c & Hc & HIn).
      assert (H : In c (filter (fun c => str_eqb (fst c) l) cols)).
      { apply filter_In. split; [exact HIn|]. now apply str_eqb_eq. }
      rewrite E in H. exact H.
    + rewrite IH. simpl. eexists. split; [reflexivity|]. now rewrite Hmore.
Qed.

Lemma filter_absent_name (cols : list (str * Pd.Series)) l :
  ~ In l (map fst cols) ->
  filter (fun c => str_eqb (fst c) l) cols = [].
Proof.
  induction cols as [|c cols IH]; simpl; [reflexivity|]. intros H.
  destruct (str_eqb (fst c) l) eqn:E.
  - exfalso. apply H. left. now apply str_eqb_eq.
  - apply IH. intros H'. apply H. now right.
Qed.

(** Under pairwise different names a label selects the one column that
    [df[label]] returns. *)
Lemma filter_distinct_name (cols : list (str * Pd.Series)) l s :
  NoDup (map fst cols) ->
  find (fun c => str_eqb (fst c) l) cols = Some (l, s) ->
  filter (fun c => str_eqb (fst c) l) cols = [(l, s)].
Proof.
  induction cols as [|c cols IH]; simpl; [discriminate|].
  intros Hnd Hf. inversion Hnd as [|? ? Hnotin Hnd']; subst.
  destruct (str_eqb (fst c) l) eqn:E.
  - injection Hf as ->. f_equal. now apply filter_absent_name.
  - now apply IH.
Qed.

Lemma getitem_found d l :
  Pd.has_column d l = true ->
  exists s, Pd.getitem d l = Ok s
            /\ find (fun c => str_eqb (fst c) l) (Pd.columns d)
               = Some (l, s).
Proof.
  intros H. destruct (has_column_getitem d l H) as [s Hs].
  exists s. split; [exact Hs|]. unfold Pd.getitem in Hs.
  destruct (find _ (Pd.columns d)) as [[l' s']|] eqn:E; [|discriminate].
  injection Hs as <-. apply find_some in E as [_ El].
  apply str_eqb_eq in El. simpl in El. now subst.
Qed.

Lemma chart_labels_known d x y :
  Pd.has_column d x = true ->
  match y with
  | Some y' => Pd.has_column d y' = true
  | None => True
  end ->
  Forall (fun l => In l (map fst (Pd.columns d))) (chart_labels x y).
Proof.
  intros Hx Hy. unfold chart_labels.
  constructor; [now apply has_column_In|].
  destruct y as [y'|]; constructor; [now apply has_column_In | constructor].
Qed.

Lemma data_for_chart_known c d x y kind :
  df c = Some d ->
  Pd.has_column d x = true ->
  match y with
  | Some y' => Pd.has_column d y' = true
  | None => True
  end ->
  data_for_chart c x y kind = getitem_list d (chart_labels x y).
Proof.
  intros Hd Hx Hy. unfold data_for_chart. rewrite Hd, Hx. cbn [negb].
  destruct y as [y'|]; [now rewrite Hy | reflexivity].
Qed.

(** X3. The chart helper raises where the query engine answers: for a
    column that the loaded table has not, [chart_data] raises
    [ValueError] with the text [Column '<name>' not found.], for [x]
    first and then for [y], and a query that names the same column gets
    that very text back as an ordinary result. *)
Theorem chart_missing_column_raises
    (a : CSVAgent) (d : Pd.DataFrame) (x : str) (y : option str)
    (kind : str)
    (Hd : loaded a d) :
  (Pd.has_column d x = false ->
   chart_data a x y kind = Raise (ValueError (column_not_found x))
   /\ forall prompt col,
        names_column (Py.lower (Py.strip prompt)) col ->
        Py.strip col = x ->
        simple (csv a) prompt = Ok (RStr (column_not_found x)))
  /\ (forall y',
        Pd.has_column d x = true -> y = Some y' ->
        Pd.has_column d y' = false ->
        chart_data a x y kind = Raise (ValueError (column_not_found y'))).
Proof.
  unfold chart_data, data_for_chart. split.
  - intros Hx. rewrite Hd, Hx. split; [reflexivity|].
    intros prompt col Hq E. subst x.
    now apply names_column_missing with d.
  - intros y' Hx -> Hy. now rewrite Hd, Hx, Hy.
Qed.

(** A chart over [revenue], which the sample has not. *)
Lemma chart_missing_column_raises_witness :
  chart_data sample_agent ("revenue" : str) None ("line" : str)
  = Raise (ValueError ("Column 'revenue' not found." : str)).
Proof.
  exact (proj1 (proj1 (chart_missing_column_raises sample_agent sample
                         ("revenue" : str) None ("line" : str) eq_refl)
                  eq_refl)).
Defined.

(** X4. For columns that the loaded table has, [chart_data] returns the
    projection of the table on [x], or on [x] and [y] in this order: the
    same index and number of rows, one column for each label, each
    holding the cells that [df[label]] holds (the names of the table being
    pairwise different), whatever [kind] is. *)
Theorem chart_data_projects
    (a : CSVAgent) (d : Pd.DataFrame) (x : str) (y : option str)
    (kind : str)
    (Hd : loaded a d)
    (Hnames : distinct_names d)
    (Hx : Pd.has_column d x = true)
    (Hy : match y with
          | Some y' => Pd.has_column d y' = true
          | None => True
          end) :
  exists t,
    chart_data a x y kind = Ok t
    /\ Pd.index t = Pd.index d
    /\ map fst (Pd.columns t) = chart_labels x y
    /\ Forall (fun c => Pd.getitem d (fst c) = Ok (snd c)) (Pd.columns t)
    /\ (Pd.wf d -> Pd.wf t).
Proof.
  unfold chart_data. rewrite (data_for_chart_known _ d x y kind Hd Hx Hy).
  unfold getitem_list.
  destruct (columns_labelled_Ok (Pd.columns d) (chart_labels x y)
              (chart_labels_known d x y Hx Hy)) as (found & -> & Hfound).
  cbn [bind]. eexists. split; [reflexivity|]. cbn [Pd.index Pd.columns].
  split; [reflexivity|].
  destruct (getitem_found d x Hx) as (sx & Hsx & Hfx).
  assert (E : found
              = (x, sx)
                :: match y with
                   | Some y' =>
                       match Pd.getitem d y' with
                       | Ok sy => [(y', sy)]
                       | Raise _ => []
                       end
                   | None => []
                   end).
  { rewrite Hfound. unfold chart_labels. cbn [flat_map].
    rewrite (filter_distinct_name _ x sx Hnames Hfx).
    destruct y as [y'|]; cbn [flat_map app]; [|reflexivity].
    destruct (getitem_found d y' Hy) as (sy & Hsy & Hfy).
    now rewrite (filter_distinct_name _ y' sy Hnames Hfy), Hsy. }
  rewrite E. clear E Hfound.
  destruct y as [y'|].
  - destruct (getitem_found d y' Hy) as (sy & Hsy & Hfy). rewrite Hsy.
    split; [reflexivity|]. split; [now repeat constructor|].
    intros Hwf. unfold Pd.wf. cbn [Pd.index Pd.columns].
    repeat constructor; cbn [snd];
      [exact (getitem_length d x sx Hwf Hsx)
      | exact (getitem_length d y' sy Hwf Hsy)].
  - split; [reflexivity|]. split; [now repeat constructor|].
    intros Hwf. unfold Pd.wf. cbn [Pd.index Pd.columns].
    repeat constructor; cbn [snd].
    exact (getitem_length d x sx Hwf Hsx).
Qed.

Lemma sample_distinct_names : distinct_names sample.
Proof.
  unfold distinct_names. cbn.
  repeat constructor; cbn; intuition discriminate.
Qed.

(** The prices of the sample by city. *)
Lemma chart_data_projects_witness :
  exists t,
    chart_data sample_agent ("city" : str) (Some ("price" : str))
      ("bar" : str) = Ok t
    /\ Pd.index t = Pd.index sample
    /\ map fst (Pd.columns t)
       = chart_labels ("city" : str) (Some ("price" : str))
    /\ Forall (fun c => Pd.getitem sample (fst c) = Ok (snd c))
         (Pd.columns t)
    /\ (Pd.wf sample -> Pd.wf t).
Proof.
  exact (chart_data_projects sample_agent sample ("city" : str)
           (Some ("price" : str)) ("bar" : str)
           eq_refl sample_distinct_names eq_refl eq_refl).
Defined.

(** X5. The names that [available_columns] lists are the ones the chart
    helper accepts: with [x], and [y] when it is given, taken from the
    list, [chart_data] returns a table and raises nothing; and the list
    is empty, rather than an error, while no dataset is loaded. *)
Theorem listed_columns_are_accepted
    (a : CSVAgent) (x : str) (y : option str) (kind : str)
    (Hx : In x (CSVAgent_available_columns a))
    (Hy : match y with
          | Some y' => In y' (CSVAgent_available_columns a)
          | None => True
          end) :
  (exists t, chart_data a x y kind = Ok t)
  /\ (forall b : CSVAgent,
        df (csv b) = None -> CSVAgent_available_columns b = []).
Proof.
  split.
  - unfold CSVAgent_available_columns, available_columns in *.
    destruct (df (csv a)) as [d|] eqn:Hd; [|destruct Hx].
    apply has_column_In in Hx.
    assert (Hy' : match y with
                  | Some y' => Pd.has_column d y' = true
                  | None => True
                  end)
      by (destruct y; [now apply has_column_In | exact I]).
    unfold chart_data.
    rewrite (data_for_chart_known _ d x y kind Hd Hx Hy').
    unfold getitem_list.
    destruct (columns_labelled_Ok (Pd.columns d) (chart_labels x y)
                (chart_labels_known d x y Hx Hy')) as (found & -> & _).
    cbn [bind]. eauto.
  - intros b Hb. unfold CSVAgent_available_columns, available_columns.
    now rewrite Hb.
Qed.

(** A scatter of two listed columns of the sample. *)
Lemma listed_columns_are_accepted_witness :
  exists t,
    chart_data sample_agent ("Qty" : str) (Some ("price" : str))
      ("scatter" : str) = Ok t.
Proof.
  refine (proj1 (listed_columns_are_accepted sample_agent ("Qty" : str)
                   (Some ("price" : str)) ("scatter" : str) _ _)).
  - right. right. left. reflexivity.
  - right. left. reflexivity.
Defined.

(** ** Blanks around a text *)

Section StripEnds.
Variable f : ascii -> bool.

Lemma lstrip_by_all s :
  Forall (fun c => f c = true) s -> Py.lstrip_by f s = [].
Proof.
  induction 1 as [|c s Hc _ IH]; simpl; [reflexivity|]. now rewrite Hc.
Qed.

Lemma lstrip_by_blank_app ws s :
  Forall (fun c => f c = true) ws ->
  Py.lstrip_by f (ws ++ s) = Py.lstrip_by f s.
Proof.
  induction 1 as [|c ws Hc _ IH]; simpl; [reflexivity|]. now rewrite Hc.
Qed.

Lemma lstrip_by_nil s :
  Py.lstrip_by f s = [] -> Forall (fun c => f c = true) s.
Proof.
  induction s as [|c s IH]; simpl; [constructor|].
  destruct (f c) eqn:E; [|discriminate]. auto.
Qed.

Lemma lstrip_by_keep_app s c r w :
  Py.lstrip_by f s = c :: r ->
  Py.lstrip_by f (s ++ w) = (c :: r) ++ w.
Proof.
  induction s as [|a s IH]; simpl; [discriminate|].
  destruct (f a); [exact IH|]. now intros [= -> ->].
Qed.

Lemma rstrip_by_app_blank s ws :
  Forall (fun c => f c = true) ws ->
  Py.rstrip_by f (s ++ ws) = Py.rstrip_by f s.
Proof.
  intros H. unfold Py.rstrip_by. rewrite rev_app_distr.
  rewrite lstrip_by_blank_app; [reflexivity|]. now apply Forall_rev.
Qed.

Lemma rstrip_by_keep_prefix p c s :
  f c = false ->
  Py.rstrip_by f ((p ++ [c]) ++ s) = (p ++ [c]) ++ Py.rstrip_by f s.
Proof.
  intros Hc. unfold Py.rstrip_by.
  rewrite !rev_app_distr. cbn [rev app].
  destruct (Py.lstrip_by f (rev s)) as [|x r] eqn:E.
  - apply lstrip_by_nil in E.
    rewrite lstrip_by_blank_app by exact E. cbn [Py.lstrip_by].
    rewrite Hc. cbn [rev app]. rewrite rev_involutive.
    now rewrite app_nil_r.
  - rewrite (lstrip_by_keep_app _ _ _ _ E). rewrite rev_app_distr.
    cbn [rev app]. now rewrite rev_involutive.
Qed.

(** Blanks on either side do not change what [strip] leaves. *)
Lemma strip_by_blank_around ws1 s ws2 :
  Forall (fun c => f c = true) ws1 ->
  Forall (fun c => f c = true) ws2 ->
  Py.strip_by f (ws1 ++ s ++ ws2) = Py.strip_by f s.
Proof.
  intros H1 H2. unfold Py.strip_by.
  rewrite lstrip_by_blank_app by exact H1.
  destruct (Py.lstrip_by f s) as [|c r] eqn:E.
  - apply lstrip_by_nil in E. rewrite lstrip_by_all; [reflexivity|].
    apply Forall_app. auto.
  - rewrite (lstrip_by_keep_app _ _ _ _ E).
    now apply rstrip_by_app_blank.
Qed.
End StripEnds.

(** X6. Blanks before and after a question do not matter to the query
    engine: [simple] answers a prompt with blanks around it as it answers
    the prompt. *)
Theorem simple_ignores_blanks_around
    (c : CSVTool) (prompt ws1 ws2 : str)
    (H1 : blank ws1) (H2 : blank ws2) :
  simple c (ws1 ++ prompt ++ ws2) = simple c prompt.
Proof.
  unfold simple, Py.strip.
  now rewrite (strip_by_blank_around Py.isspace ws1 prompt ws2 H1 H2).
Qed.

(** A sum asked with a tab in front and a newline behind. *)
Lemma simple_ignores_blanks_around_witness :
  simple sample_store
    (["009"%char] ++ ("sum of price" : str) ++ ["010"%char; " "%char])
  = simple sample_store ("sum of price" : str).
Proof.
  apply simple_ignores_blanks_around; repeat constructor.
Defined.

(** ** Asking *)

Lemma ask_sql sqldf cell_type text a :
  Py.startswith "sql:" (Py.lower (Py.strip text)) = true ->
  fst (ask sqldf cell_type text a)
  = (t <- sql sqldf (csv a) (Py.strip (Py.slice_from 4 (Py.strip text))) ;;
     Ok (RTable t)).
Proof.
  intros H. unfold ask, mbind. rewrite remember_eq. unfold get.
  cbn [csv]. rewrite H. unfold lift, ret.
  destruct (sql sqldf (csv a) _) as [t|e]; [|reflexivity].
  now rewrite remember_eq.
Qed.

(** The four characters of a prefix [sql:] in some letter case; none is
    a blank. *)
Lemma sql_prefix_chars pfx :
  Py.lower pfx = ("sql:" : str) ->
  exists a b c e,
    pfx = [a; b; c; e]
    /\ Py.isspace a = false /\ Py.isspace e = false
    /\ forall rest,
         Py.startswith "sql:" (Py.lower ([a; b; c; e] ++ rest)) = true.
Proof.
  intros H.
  destruct pfx as [|a [|b [|c [|e [|x pfx]]]]]; try discriminate H.
  exists a, b, c, e. split; [reflexivity|].
  pose proof H as H'. cbn in H'. injection H' as Ha Hb Hc He.
  repeat split.
  - rewrite <- isspace_lower_char, Ha. reflexivity.
  - rewrite <- isspace_lower_char, He. reflexivity.
  - intros rest. unfold Py.lower in *. rewrite map_app, H. reflexivity.
Qed.

Lemma rstrip_by_all f s :
  Forall (fun c => f c = true) s -> Py.rstrip_by f s = [].
Proof.
  intros H. unfold Py.rstrip_by. rewrite lstrip_by_all; [reflexivity|].
  now apply Forall_rev.
Qed.

(** What [strip] leaves of blanks and a trimmed text is the text. *)
Lemma strip_after_rstrip ws q :
  blank ws -> Py.strip q = q ->
  Py.strip (Py.rstrip_by Py.isspace (ws ++ q)) = q.
Proof.
  intros Hws Hq.
  destruct (rev q) as [|c r] eqn:E.
  - apply (f_equal (@rev ascii)) in E. rewrite rev_involutive in E.
    subst q. rewrite app_nil_r, rstrip_by_all by exact Hws. reflexivity.
  - apply (f_equal (@rev ascii)) in E. rewrite rev_involutive in E.
    cbn [rev] in E. subst q.
    assert (Hc : Py.isspace c = false).
    { unfold Py.strip in Hq. exact (strip_by_last _ _ _ _ Hq). }
    rewrite app_assoc.
    rewrite <- (app_nil_r ((ws ++ rev r) ++ [c])) at 1.
    rewrite (rstrip_by_keep_prefix Py.isspace (ws ++ rev r) c [] Hc).
    cbn [Py.rstrip_by rev Py.lstrip_by]. rewrite app_nil_r, <- app_assoc.
    unfold Py.strip.
    rewrite <- (app_nil_r (rev r ++ [c])) at 1.
    rewrite (strip_by_blank_around Py.isspace ws (rev r ++ [c]) []);
      [exact Hq | exact Hws | constructor].
Qed.

(** X7. A text that starts with [sql:], in any letter case and with
    blanks before it, goes to the SQL engine and nowhere else: the engine
    gets the text that follows the prefix, without the blanks around it
    and in its own letter case, and [ask] returns the table of the engine,
    or raises what the engine raises. *)
Theorem sql_text_reaches_engine
    (sqldf : str -> Pd.DataFrame -> res Pd.DataFrame)
    (cell_type : CSVTool -> str -> str)
    (a : CSVAgent) (d : Pd.DataFrame) (pfx q ws1 ws2 ws3 : str)
    (Hd : loaded a d)
    (Hpfx : Py.lower pfx = ("sql:" : str))
    (Hq : Py.strip q = q)
    (H1 : blank ws1) (H2 : blank ws2) (H3 : blank ws3) :
  fst (ask sqldf cell_type (ws1 ++ pfx ++ ws2 ++ q ++ ws3) a)
  = match sqldf q d with
    | Ok t => Ok (RTable t)
    | Raise e => Raise e
    end.
Proof.
  destruct (sql_prefix_chars pfx Hpfx) as (x & b & c & e & -> & Hx & He & Hs).
  assert (E : Py.strip (ws1 ++ [x; b; c; e] ++ ws2 ++ q ++ ws3)
              = [x; b; c; e] ++ Py.rstrip_by Py.isspace (ws2 ++ q)).
  { unfold Py.strip.
    replace (ws1 ++ [x; b; c; e] ++ ws2 ++ q ++ ws3)
      with (ws1 ++ ([x; b; c; e] ++ ws2 ++ q) ++ ws3)
      by (now rewrite <- !app_assoc).
    rewrite (strip_by_blank_around Py.isspace ws1 _ ws3 H1 H3).
    unfold Py.strip_by. cbn [app Py.lstrip_by]. rewrite Hx.
    change (x :: b :: c :: e :: ws2 ++ q)
      with (([x; b; c] ++ [e]) ++ (ws2 ++ q)).
    now rewrite (rstrip_by_keep_prefix Py.isspace [x; b; c] e _ He). }
  rewrite ask_sql.
  - rewrite E. cbn [Py.slice_from skipn app].
    rewrite (strip_after_rstrip ws2 q H2 Hq).
    unfold sql. rewrite Hd. destruct (sqldf q d); reflexivity.
  - rewrite E. apply Hs.
Qed.

(** A query in capitals behind a prefix in capitals, on the sample and
    an engine that refuses. *)
Lemma sql_text_reaches_engine_witness :
  fst (ask no_sql sample_cell_type
         ((" " : str) ++ ("SQL:" : str) ++ ("  " : str)
          ++ ("SELECT City FROM df" : str) ++ (" " : str))
         sample_agent)
  = match no_sql ("SELECT City FROM df" : str) sample with
    | Ok t => Ok (RTable t)
    | Raise e => Raise e
    end.
Proof.
  apply (sql_text_reaches_engine no_sql sample_cell_type sample_agent sample);
    try reflexivity; repeat constructor.
Defined.

(** X8. Asking never touches the dataset and always logs the question:
    after [ask], whatever the text and the outcome, the store is the one
    before, the log holds at most 50 entries, and it ends with the user
    turn followed by the type name of the answer, or with the user turn
    alone when the query raised.  The type name is [int], [float],
    [list], [DataFrame] or [str] by the kind of the answer, and for a
    cell from [max] or [min] the name that the libraries give its
    type. *)
Theorem ask_keeps_store_and_logs :
  forall (sqldf : str -> Pd.DataFrame -> res Pd.DataFrame)
    (cell_type : CSVTool -> str -> str)
         (text : str) (a : CSVAgent),
    csv (snd (ask sqldf cell_type text a)) = csv a
    /\ length (memory (snd (ask sqldf cell_type text a))) <= 50
    /\ memory (snd (ask sqldf cell_type text a))
       = match fst (ask sqldf cell_type text a) with
         | Ok r =>
             last_n 50
               (last_n 50 (memory a ++ [entry ("user" : str, text)])
                ++ [entry ("agent" : str,
                           type_name (cell_type (csv a) text) r)])
         | Raise _ => last_n 50 (memory a ++ [entry ("user" : str, text)])
         end.
Proof.
  intros sqldf cell_type text a. unfold ask, mbind. rewrite remember_eq.
  unfold get. cbn [csv memory].
  destruct (Py.startswith "sql:" (Py.lower (Py.strip text))).
  - unfold lift, ret.
    destruct (sql sqldf (csv a) _) as [t|e]; cbn [fst snd csv memory].
    + rewrite remember_eq. cbn [fst snd csv memory].
      repeat split. rewrite last_n_length. lia.
    + repeat split. rewrite last_n_length. lia.
  - unfold lift, ret.
    destruct (simple (csv a) text) as [r|e]; cbn [fst snd csv memory].
    + rewrite remember_eq. cbn [fst snd csv memory].
      repeat split. rewrite last_n_length. lia.
    + repeat split. rewrite last_n_length. lia.
Qed.

(** ** Loading, then using *)

(** X9. What is loaded is what is used afterwards: after a [load_csv]
    that parsed a table, the store holds that table under the file name,
    [available_columns] lists its columns, [count rows] returns its
    number of rows, the default preview is its first five rows, and the
    log got one [SYSTEM] entry with the message of the load. *)
Theorem load_then_use
    (kwargs : Type)
    (read_csv : list Byte.byte -> kwargs -> res Pd.DataFrame)
    (sqldf : str -> Pd.DataFrame -> res Pd.DataFrame)
    (cell_type : CSVTool -> str -> str)
    (file_bytes : list Byte.byte) (filename : str) (kw : kwargs)
    (a : CSVAgent) (d : Pd.DataFrame)
    (Hparse : read_csv file_bytes kw = Ok d) :
  let a' := snd (load_csv read_csv file_bytes filename kw a) in
  csv a' = {| df := Some d; name := filename |}
  /\ available (csv a') = true
  /\ CSVAgent_available_columns a' = map fst (Pd.columns d)
  /\ fst (ask sqldf cell_type ("count rows" : str) a')
     = Ok (RInt (Z.of_nat (Pd.len d)))
  /\ CSVAgent_head a' head_default = Ok (Pd.head d 5)
  /\ memory a'
     = last_n 50
         (memory a
          ++ [entry ("system" : str, loaded_message filename d)]).
Proof.
  intros a'.
  assert (E : a' = {| csv := {| df := Some d; name := filename |};
                      memory :=
                        last_n 50
                          (memory a
                           ++ [entry ("system" : str,
                                      loaded_message filename d)]) |}).
  { unfold a', load_csv, on_csv, load, mbind, lift, modify, ret.
    rewrite Hparse. cbn [csv memory df name fst snd].
    rewrite remember_eq. reflexivity. }
  rewrite E. cbn [csv memory df].
  repeat split.
  rewrite ask_simple by reflexivity. reflexivity.
Qed.

(** The sample parsed from a file of one byte. *)
Lemma load_then_use_witness :
  fst (ask no_sql sample_cell_type ("count rows" : str)
         (snd (load_csv parse_sample [Byte.x61] ("sales.csv" : str) tt
                 CSVAgent_init)))
  = Ok (RInt 6).
Proof.
  exact (proj1 (proj2 (proj2 (proj2
           (load_then_use unit parse_sample no_sql sample_cell_type [Byte.x61]
              ("sales.csv" : str) tt CSVAgent_init sample eq_refl))))).
Defined.

(** ** Before a dataset is loaded *)

(** X10. While the store holds no dataset, every request of the agent
    that needs one raises [ValueError] with the message [No CSV loaded.],
    whatever its arguments: the preview, the schema, the chart data and
    [ask] on any text, SQL or not; [ask] leaves the store empty; and the
    list of columns is empty. *)
Theorem nothing_loaded_raises
    (dtype_of : str * Pd.Series -> str)
    (sqldf : str -> Pd.DataFrame -> res Pd.DataFrame)
    (cell_type : CSVTool -> str -> str)
    (a : CSVAgent)
    (Hno : available (csv a) = false) :
  (forall n, CSVAgent_head a n = Raise NO_CSV)
  /\ profile_schema dtype_of a = Raise NO_CSV
  /\ (forall x y kind, chart_data a x y kind = Raise NO_CSV)
  /\ (forall text,
        fst (ask sqldf cell_type text a) = Raise NO_CSV
        /\ available (csv (snd (ask sqldf cell_type text a))) = false)
  /\ CSVAgent_available_columns a = [].
Proof.
  assert (E : df (csv a) = None).
  { unfold available in Hno. destruct (df (csv a)); [discriminate|easy]. }
  unfold CSVAgent_head, CSVTool_head, profile_schema, schema, chart_data,
    data_for_chart, CSVAgent_available_columns, available_columns.
  rewrite E. repeat split.
  - destruct (Py.startswith "sql:" (Py.lower (Py.strip text))) eqn:Hs.
    + rewrite (ask_sql _ _ _ _ Hs). unfold sql. now rewrite E.
    + rewrite (ask_simple _ _ _ _ Hs). unfold simple. now rewrite E.
  - unfold ask, mbind. rewrite remember_eq. unfold get, lift, ret.
    cbn [csv memory fst snd].
    destruct (Py.startswith "sql:" (Py.lower (Py.strip text))).
    + destruct (sql sqldf (csv a) _); [rewrite remember_eq|]; exact Hno.
    + destruct (simple (csv a) text); [rewrite remember_eq|]; exact Hno.
Qed.

(** The agent as it is created. *)
Lemma nothing_loaded_raises_witness :
  fst (ask no_sql sample_cell_type ("count rows" : str) CSVAgent_init)
  = Raise NO_CSV.
Proof.
  exact (proj1 (proj1 (proj2 (proj2 (proj2
           (nothing_loaded_raises sample_dtype no_sql sample_cell_type
              CSVAgent_init
              eq_refl))))
           ("count rows" : str))).
Defined.

(** ** The schema *)

Lemma isna_partition (s : Pd.Series) :
  length (filter (fun v => negb (Pd.isna v)) s) + length (filter Pd.isna s)
  = length s.
Proof.
  induction s as [|v s IH]; [reflexivity|].
  cbn [filter]. destruct (Pd.isna v); cbn [negb length]; lia.
Qed.

Lemma unique_from_length s : forall seen,
  length (Pd.unique_from seen s) <= length s.
Proof.
  induction s as [|x s IH]; intros seen; cbn [Pd.unique_from length];
    [lia|].
  destruct (existsb (Pd.same x) seen); cbn [length].
  - specialize (IH seen). lia.
  - specialize (IH (seen ++ [x])). lia.
Qed.

(** X11. The schema has one row for each column of the dataset, in the
    order of the columns, and its counts add up: in every row [non_null]
    plus [nulls] is the number of rows of the dataset, and [unique] lies
    between zero and [non_null]. *)
Theorem schema_counts_add_up
    (dtype_of : str * Pd.Series -> str)
    (c : CSVTool) (d : Pd.DataFrame)
    (Hd : df c = Some d)
    (Hwf : Pd.wf d)
    (Hnames : distinct_names d) :
  exists t ns ms us,
    schema dtype_of c = Ok t
    /\ Pd.wf t
    /\ Pd.len t = Pd.ncols d
    /\ Pd.getitem t "column" = Ok (map VStr (available_columns c))
    /\ Pd.getitem t "non_null" = Ok (map VInt ns)
    /\ Pd.getitem t "nulls" = Ok (map VInt ms)
    /\ Pd.getitem t "unique" = Ok (map VInt us)
    /\ Forall2 (fun n m => (n + m)%Z = Z.of_nat (Pd.len d)) ns ms
    /\ Forall2 (fun u n => (0 <= u <= n)%Z) us ns.
Proof.
  unfold schema, available_columns. rewrite Hd.
  eexists _,
    (map (fun col => count_notnull (snd col)) (Pd.columns d)),
    (map (fun col => count_null (snd col)) (Pd.columns d)),
    (map (fun col => nunique (snd col)) (Pd.columns d)).
  split; [reflexivity|].
  unfold Pd.wf, Pd.len, Pd.ncols, range_index. cbn [Pd.index Pd.columns].
  rewrite !length_map, length_seq.
  split; [|split; [reflexivity|]].
  { repeat constructor; cbn [snd]; now rewrite length_map. }
  unfold Pd.getitem. cbn [Pd.columns find fst snd].
  rewrite !map_map.
  split; [reflexivity|]. split; [reflexivity|]. split; [reflexivity|].
  split; [reflexivity|].
  unfold Pd.wf in Hwf. clear Hd Hnames.
  induction Hwf as [|col cols Hc _ [IH1 IH2]]; cbn [map];
    split; constructor; auto.
  - unfold count_notnull, count_null. rewrite <- Nat2Z.inj_add.
    f_equal. now rewrite <- Hc, <- (isna_partition (snd col)).
  - unfold nunique, count_notnull, Pd.unique.
    pose proof (unique_from_length (Pd.dropna (snd col)) []) as H.
    split; [apply Nat2Z.is_nonneg | apply Nat2Z.inj_le; exact H].
Qed.

(** The schema of the sample. *)
Lemma schema_counts_add_up_witness :
  exists t ns ms us,
    schema sample_dtype sample_store = Ok t
    /\ Pd.wf t
    /\ Pd.len t = Pd.ncols sample
    /\ Pd.getitem t "column" = Ok (map VStr (available_columns sample_store))
    /\ Pd.getitem t "non_null" = Ok (map VInt ns)
    /\ Pd.getitem t "nulls" = Ok (map VInt ms)
    /\ Pd.getitem t "unique" = Ok (map VInt us)
    /\ Forall2 (fun n m => (n + m)%Z = Z.of_nat (Pd.len sample)) ns ms
    /\ Forall2 (fun u n => (0 <= u <= n)%Z) us ns.
Proof.
  exact (schema_counts_add_up sample_dtype sample_store sample eq_refl
           sample_wf sample_distinct_names).
Defined.

(** ** The largest and the smallest *)

Lemma dropna_int_cells zs : Pd.dropna (int_cells zs) = int_cells zs.
Proof.
  unfold Pd.dropna, int_cells.
  induction zs as [|z zs IH]; cbn [map filter Pd.isna negb]; congruence.
Qed.

Lemma extreme_from_max zs : forall b,
  Pd.extreme_from Pd.Gt_ (VInt b) (int_cells zs)
  = Ok (VInt (fold_left Z.max zs b)).
Proof.
  induction zs as [|z zs IH]; intros b; [reflexivity|].
  cbn [int_cells map Pd.extreme_from fold_left].
  unfold Pd.compare_cell.
  cbn [Pd.isna orb Pd.as_int bind Pd.decide_cmp].
  fold (int_cells zs).
  destruct (Z.compare_spec z b) as [E|E|E]; rewrite IH; do 3 f_equal; lia.
Qed.

Lemma extreme_from_min zs : forall b,
  Pd.extreme_from Pd.Lt_ (VInt b) (int_cells zs)
  = Ok (VInt (fold_left Z.min zs b)).
Proof.
  induction zs as [|z zs IH]; intros b; [reflexivity|].
  cbn [int_cells map Pd.extreme_from fold_left].
  unfold Pd.compare_cell.
  cbn [Pd.isna orb Pd.as_int bind Pd.decide_cmp].
  fold (int_cells zs).
  destruct (Z.compare_spec z b) as [E|E|E]; rewrite IH; do 3 f_equal; lia.
Qed.

Lemma fold_max_bound zs : forall b,
  In (fold_left Z.max zs b) (b :: zs)
  /\ Forall (fun z => (z <= fold_left Z.max zs b)%Z) (b :: zs).
Proof.
  induction zs as [|z zs IH]; intros b; cbn [fold_left].
  - split; [now left | repeat constructor; lia].
  - destruct (IH (Z.max b z)) as [HIn Hall].
    inversion Hall as [|? ? Hb Hzs]; subst. split.
    + destruct HIn as [HIn|HIn]; [|now right; right].
      rewrite <- HIn.
      destruct (Z.max_spec b z) as [[_ ->]|[_ ->]];
        [right; now left | now left].
    + constructor; [lia|]. constructor; [lia|exact Hzs].
Qed.

Lemma fold_min_bound zs : forall b,
  In (fold_left Z.min zs b) (b :: zs)
  /\ Forall (fun z => (fold_left Z.min zs b <= z)%Z) (b :: zs).
Proof.
  induction zs as [|z zs IH]; intros b; cbn [fold_left].
  - split; [now left | repeat constructor; lia].
  - destruct (IH (Z.min b z)) as [HIn Hall].
    inversion Hall as [|? ? Hb Hzs]; subst. split.
    + destruct HIn as [HIn|HIn]; [|now right; right].
      rewrite <- HIn.
      destruct (Z.min_spec b z) as [[_ ->]|[_ ->]];
        [now left | right; now left].
    + constructor; [lia|]. constructor; [lia|exact Hzs].
Qed.

(** X12. On a column of integers with at least one row, the questions
    for the smallest and for the largest value return two cells of the
    column, and every cell of the column lies between them. *)
Theorem min_max_bound_integer_column
    (c : CSVTool) (d : Pd.DataFrame) (pmin pmax col : str) (zs : list Z)
    (Hd : df c = Some d)
    (Hmin : column_query (Py.lower (Py.strip pmin)) "min" col)
    (Hmax : column_query (Py.lower (Py.strip pmax)) "max" col)
    (Hcol : Pd.getitem d (Py.strip col) = Ok (int_cells zs))
    (Hrows : zs <> []) :
  exists lo hi,
    simple c pmin = Ok (RScalar (VInt lo))
    /\ simple c pmax = Ok (RScalar (VInt hi))
    /\ In lo zs /\ In hi zs
    /\ Forall (fun z => (lo <= z <= hi)%Z) zs.
Proof.
  destruct zs as [|b zs]; [contradiction|].
  exists (fold_left Z.min zs b), (fold_left Z.max zs b).
  pose proof (getitem_has_column _ _ _ Hcol) as Hc.
  rewrite (simple_column_query _ d _ _ _ Hd Hmin).
  rewrite (simple_column_query _ d _ _ _ Hd Hmax).
  unfold column_action. rewrite Hc, Hcol.
  cbn [negb str_eqb bind].
  unfold Pd.min, Pd.max, Pd.extreme.
  rewrite dropna_int_cells. cbn [int_cells map].
  fold (int_cells zs). rewrite extreme_from_min, extreme_from_max.
  destruct (fold_min_bound zs b) as [Hlo Hlo'].
  destruct (fold_max_bound zs b) as [Hhi Hhi'].
  repeat split; try assumption; try reflexivity.
  rewrite Forall_forall in *. intros z Hz.
  specialize (Hlo' z Hz). specialize (Hhi' z Hz). cbv beta in *. lia.
Qed.

Lemma min_of_n_query :
  column_query (Py.lower (Py.strip ("Min of n" : str))) "min" ("n" : str).
Proof.
  exists (column_pattern "min of "). eexists.
  split; [do 4 right; left; reflexivity|].
  split; [reflexivity|]. split; [lazy; reflexivity | reflexivity].
Qed.

Lemma max_of_n_query :
  column_query (Py.lower (Py.strip ("max of n" : str))) "max" ("n" : str).
Proof.
  exists (column_pattern "max of "). eexists.
  split; [do 3 right; left; reflexivity|].
  split; [reflexivity|]. split; [lazy; reflexivity | reflexivity].
Qed.

(** The column [n] of the table with gaps holds 3 and -4. *)
Lemma min_max_bound_integer_column_witness :
  exists lo hi,
    simple gaps_store ("Min of n" : str) = Ok (RScalar (VInt lo))
    /\ simple gaps_store ("max of n" : str) = Ok (RScalar (VInt hi))
    /\ In lo [3; -4]%Z /\ In hi [3; -4]%Z
    /\ Forall (fun z => (lo <= z <= hi)%Z) [3; -4]%Z.
Proof.
  apply (min_max_bound_integer_column gaps_store gaps
           ("Min of n" : str) ("max of n" : str) ("n" : str) [3; -4]%Z
           eq_refl min_of_n_query max_of_n_query eq_refl).
  discriminate.
Defined.

(** ** Quoted values *)

Lemma quote_not_space_c q :
  Py.mem_char quote_chars q = true -> Py.isspace_c q = false.
Proof.
  unfold Py.mem_char, quote_chars. cbn [existsb].
  rewrite orb_false_r. intros [H|H]%orb_prop;
    apply Ascii.eqb_eq in H; subst q; reflexivity.
Qed.

(** Neither cast takes a text that starts and ends with a quote
    character. *)
Lemma quoted_not_number q t q' :
  Py.mem_char quote_chars q = true ->
  Py.mem_char quote_chars q' = true ->
  first_cast casters (q :: t ++ [q']) = None.
Proof.
  intros Hq Hq'.
  assert (E : Py.strip_by Py.isspace_c (q :: t ++ [q']) = q :: t ++ [q']).
  { unfold Py.strip_by. cbn [Py.lstrip_by].
    rewrite (quote_not_space_c q Hq).
    pose proof (rstrip_by_keep_prefix Py.isspace_c (q :: t) q' []
                  (quote_not_space_c q' Hq')) as H.
    rewrite !app_nil_r in H. exact H. }
  unfold casters. cbn [first_cast].
  unfold Py.int, Py.float_of_str. rewrite E.
  unfold Py.mem_char, quote_chars in Hq. cbn [existsb] in Hq.
  rewrite orb_false_r in Hq.
  apply orb_prop in Hq as [H|H]; apply Ascii.eqb_eq in H; subst q;
    reflexivity.
Qed.

(** X13. Quotes make a value text: a token between two quote characters
    is coerced to the text between them, also when that text reads as a
    number or as [true] or [false]. *)
Theorem quoted_value_is_text
    (q q' : ascii) (t : str)
    (Hq : Py.mem_char quote_chars q = true)
    (Hq' : Py.mem_char quote_chars q' = true)
    (Ht : Py.strip_chars quote_chars t = t) :
  _coerce_value (q :: t ++ [q']) = Ok (VStr t).
Proof.
  unfold _coerce_value. rewrite (quoted_not_number q t q' Hq Hq').
  assert (Hk : forall w : str,
             (exists c r, w = c :: r /\ Py.mem_char quote_chars c = false
                          /\ Py.lower_char c = c) ->
             str_eqb (Py.lower (q :: t ++ [q'])) w = false).
  { intros w (c & r & -> & Hc & Hl). apply str_eqb_neq.
    cbn [Py.lower map]. intros [= E _].
    unfold Py.mem_char, quote_chars in Hq. cbn [existsb] in Hq.
    rewrite orb_false_r in Hq.
    apply orb_prop in Hq as [H|H]; apply Ascii.eqb_eq in H; subst q;
      cbn in E; subst c; discriminate Hc. }
  rewrite (Hk "true"), (Hk "false"); cycle 1.
  { exists "f"%char, ("alse" : str). repeat split. }
  { exists "t"%char, ("rue" : str). repeat split. }
  cbn [orb]. do 2 f_equal. unfold Py.strip_chars in *.
  change (q :: t ++ [q']) with ([q] ++ t ++ [q']).
  rewrite strip_by_blank_around; [exact Ht| |]; repeat constructor;
    assumption.
Qed.

(** The number 42 between two apostrophes. *)
Lemma quoted_value_is_text_witness :
  _coerce_value ("'42'" : str) = Ok (VStr ("42" : str)).
Proof.
  exact (quoted_value_is_text "'"%char "'"%char ("42" : str)
           eq_refl eq_refl eq_refl).
Defined.

(** ** The characters of a column name *)

Lemma names_column_colchars p col :
  names_column p col ->
  Forall (fun ch => Re.mem colchars ch = true) col.
Proof.
  intros [(kind & pat & m & HIn & Hk & Hm & Hg)
         |(op & val & topn & m & Hm & Hg)].
  - unfold SIMPLE_PATTERNS in HIn. cbn [In] in HIn.
    repeat destruct HIn as [HIn|HIn]; try (exfalso; exact HIn);
      apply pair_eq_inv in HIn as [-> ->];
      try discriminate Hk;
      apply column_pattern_sound in Hm as (g & rest & _ & Hg' & _ & Hc & _);
      rewrite Hg in Hg'; injection Hg' as <-; exact Hc.
  - apply filter_pattern_sound in Hm
      as (g & w1 & o & w2 & v & w3 & w4 & t & rest & _ & Hg' & [_ Hc] & _).
    rewrite Hg in Hg'. injection Hg' as <- _ _ _. exact Hc.
Qed.

(** X14. The name a question looks up is made of letters, digits,
    underscores, hyphens and blanks only, so a column whose name has any
    other character, a dot or a parenthesis say, is never the column of a
    question. *)
Theorem column_name_characters
    (prompt col nm : str)
    (Hq : names_column (Py.lower (Py.strip prompt)) col)
    (Hout : Exists outside_colchars nm) :
  Forall (fun ch => Re.mem colchars ch = true) (Py.strip col)
  /\ Py.strip col <> nm.
Proof.
  assert (H : Forall (fun ch => Re.mem colchars ch = true) (Py.strip col)).
  { apply names_column_colchars in Hq. rewrite Forall_forall in *.
    intros ch Hch. apply Hq. unfold Py.strip in Hch.
    now apply strip_by_incl in Hch. }
  split; [exact H|]. intros E. rewrite E in H.
  apply Exists_exists in Hout as (ch & HIn & Hch).
  rewrite Forall_forall in H. specialize (H ch HIn).
  unfold outside_colchars in Hch. congruence.
Qed.

Lemma sum_of_qty_names_qty :
  names_column (Py.lower (Py.strip ("sum of qty" : str))) ("qty" : str).
Proof.
  left. exists ("sum" : str), (column_pattern "sum of "). eexists.
  split; [right; right; left; reflexivity|].
  split; [reflexivity|]. split; [lazy; reflexivity | reflexivity].
Qed.

(** A name with a dot. *)
Lemma column_name_characters_witness :
  Py.strip ("qty" : str) <> ("qty.1" : str).
Proof.
  refine (proj2 (column_name_characters ("sum of qty" : str) ("qty" : str)
                   ("qty.1" : str) sum_of_qty_names_qty _)).
  do 3 apply Exists_cons_tl. apply Exists_cons_hd. reflexivity.
Defined.

(** ** Letter case *)

(** X15. Outside SQL the letter case of a question is lost before it is
    read: [ask] answers an ASCII text that does not start with [sql:] as
    it answers the same text in capitals, and any such text as it answers
    the text in small letters.  (Outside ASCII, the capitals of a text
    need not come back to the text when lowercased.) *)
Theorem ask_ignores_letter_case
    (sqldf : str -> Pd.DataFrame -> res Pd.DataFrame)
    (cell_type : CSVTool -> str -> str)
    (text : str) (a : CSVAgent)
    (Hs : Py.startswith "sql:" (Py.lower (Py.strip text)) = false) :
  (Py.isascii text = true ->
   fst (ask sqldf cell_type (Py.upper text) a)
   = fst (ask sqldf cell_type text a))
  /\ fst (ask sqldf cell_type (Py.lower text) a)
     = fst (ask sqldf cell_type text a).
Proof.
  rewrite (ask_simple sqldf cell_type text a Hs). split.
  - intros Ha. rewrite ask_simple; [now apply simple_upper|].
    now rewrite strip_upper, lower_upper.
  - rewrite ask_simple; [apply simple_lower|].
    now rewrite strip_lower, lower_idem.
Qed.

Lemma ask_ignores_letter_case_witness :
  fst (ask no_sql sample_cell_type (Py.upper ("sum of price" : str))
         sample_agent)
  = fst (ask no_sql sample_cell_type ("sum of price" : str) sample_agent).
Proof.
  exact (proj1 (ask_ignores_letter_case no_sql sample_cell_type
                  ("sum of price" : str) sample_agent eq_refl)
           eq_refl).
Defined.







